(** * THI solar dashboard: the ingestion pipeline, embedded and verified

    A shallow embedding of the polling monitor ([ftp_monitor.py]) and of the
    parsing, logging and statistics functions of the dashboard ([app.py]),
    followed by the properties of the specification that they settle.

    Conventions of the embedding.
    - A Python [float] is an IEEE 754 binary64 number: Rocq's primitive
      [float], with its operations.  [=] on floats is identity of the value
      (one NaN, [+0] and [-0] distinct); [PrimFloat.eqb] is Python's [==].
    - A Python [str] is a [string]; the model follows Python on strings
      of ASCII characters, and the properties that depend on the class of
      a character (white space, digit, letter) are stated for those.
      [bytes] are a [list byte].
    - The local directory is a finite map from path to content.
    - What the network, the local disk and the database answer during a call
      is an explicit argument of the call ([transfer], [mdtm_session],
      [option string] for a fault); the effects of the call are returned as
      a new state. *)

From Stdlib Require Import ZArith Ascii String Floats Lia Sorting.Sorted Sorting.Permutation.
From stdpp Require Import base strings list gmap pretty.

Set Warnings "-inexact-float".
#[local] Open Scope string_scope.
#[local] Open Scope Z_scope.
#[local] Open Scope list_scope.

(** ** Outcome of a Python call that may raise *)

Inductive result (E A : Type) : Type :=
| Ok (a : A)
| Raised (e : E).
Arguments Ok {E A} a.
Arguments Raised {E A} e.

Definition bind {E A B} (r : result E A) (k : A -> result E B) : result E B :=
  match r with
  | Ok a => k a
  | Raised e => Raised e
  end.

(** The value, when there is one. *)
Definition to_option {E A} (r : result E A) : option A :=
  match r with
  | Ok a => Some a
  | Raised _ => None
  end.

Notation "x <-! r ; k" := (bind r (fun x => k))
  (at level 100, r at next level, right associativity, only parsing).

(** ** The Python builtins the programs call *)

Module Py.

(** [s.startswith(p)] *)
Definition startswith (s p : string) : bool := String.prefix p s.

(** [s.endswith(p)] *)
Definition endswith (s p : string) : bool :=
  let ls := String.list_ascii_of_string s in
  let lp := String.list_ascii_of_string p in
  bool_decide (drop (length ls - length lp)%nat ls = lp)
  && bool_decide (length lp <= length ls)%nat.

(** [s.split(sep)] for a separator of one character: every occurrence
    cuts, empty pieces are kept, and the result is never empty. *)
Fixpoint split_on (sep : ascii) (s : string) : list string :=
  match s with
  | EmptyString => [""]
  | String a rest =>
      if Ascii.eqb a sep then "" :: split_on sep rest
      else match split_on sep rest with
           | piece :: pieces => String a piece :: pieces
           | [] => [String a ""]
           end
  end.

(** The ASCII characters that [str.isspace] accepts: tab to carriage
    return, the four separators 28 to 31, and the space. *)
Definition is_space (a : ascii) : bool :=
  let n := Z.of_nat (nat_of_ascii a) in
  ((9 <=? n) && (n <=? 13)) || ((28 <=? n) && (n <=? 32)).

(** [s.split()]: cut at runs of white space, no empty piece. *)
Fixpoint split_ws_aux (cur : option string) (s : string) : list string :=
  match s with
  | EmptyString => match cur with Some w => [String.rev w] | None => [] end
  | String a rest =>
      if is_space a then
        match cur with
        | Some w => String.rev w :: split_ws_aux None rest
        | None => split_ws_aux None rest
        end
      else
        split_ws_aux (Some (String a (default "" cur))) rest
  end.

Definition split_ws (s : string) : list string := split_ws_aux None s.

Definition digit_of (a : ascii) : option Z :=
  let n := Z.of_nat (nat_of_ascii a) in
  if (48 <=? n) && (n <=? 57) then Some (n - 48) else None.

(** The value of a run of decimal digits, [None] on any other character. *)
Fixpoint digits_from (acc : Z) (s : string) : option Z :=
  match s with
  | EmptyString => Some acc
  | String a rest =>
      match digit_of a with
      | Some d => digits_from (10 * acc + d) rest
      | None => None
      end
  end.

(** The white space that [int] skips around an ASCII numeral: tab to
    carriage return, and the space; not the separators 28 to 31, which
    only [str.split] takes. *)
Definition is_int_space (a : ascii) : bool :=
  let n := Z.of_nat (nat_of_ascii a) in
  ((9 <=? n) && (n <=? 13)) || (n =? 32).

Fixpoint lstrip_int (s : string) : string :=
  match s with
  | String a rest => if is_int_space a then lstrip_int rest else s
  | EmptyString => EmptyString
  end.

Definition strip_int (s : string) : string :=
  String.rev (lstrip_int (String.rev (lstrip_int s))).

(** The most digits that [int] converts: [sys.get_int_max_str_digits()]
    as CPython 3.11 sets it. *)
Definition max_str_digits : nat := 4300.

Definition unsigned_int (s : string) : option Z :=
  match s with
  | EmptyString => None
  | _ =>
      if (max_str_digits <? String.length s)%nat then None
      else digits_from 0 s
  end.

(** [int(s)] in base ten, on a string of ASCII characters without
    underscore (the pieces of [split('_')] have none): white space
    around, an optional sign, then at least one digit and at most
    [max_str_digits], leading zeros counted.  [None] stands for
    [ValueError]. *)
Definition int (s : string) : option Z :=
  match strip_int s with
  | String "+" rest => unsigned_int rest
  | String "-" rest => Z.opp <$> unsigned_int rest
  | body => unsigned_int body
  end.

(** [bool(x)] of a float: false on both zeros, true otherwise (NaN too). *)
Definition truthy (x : float) : bool := negb (PrimFloat.eqb x 0%float).

(** [sum(xs)] of floats: the additions from the left, starting at the
    integer [0] (CPython up to 3.11; later versions compensate the
    rounding of float sums). *)
Definition sum (xs : list float) : float :=
  fold_left PrimFloat.add xs 0%float.

(** Whether every character of [s] passes the test [p]. *)
Fixpoint all_chars (p : ascii -> bool) (s : string) : bool :=
  match s with
  | EmptyString => true
  | String a rest => p a && all_chars p rest
  end.

(** A string of ASCII characters.  On these the functions of this module
    are the ones of Python; a character of a higher code may be white
    space, a digit or a letter for Python and is none of these here. *)
Definition is_ascii_char (a : ascii) : bool := (nat_of_ascii a <? 128)%nat.

Definition is_ascii (s : string) : bool := all_chars is_ascii_char s.

(** An ASCII digit. *)
Definition is_digit (a : ascii) : bool := bool_decide (is_Some (digit_of a)).

(** A word: not empty, and without white space. *)
Definition is_word (s : string) : bool :=
  negb (bool_decide (s = "")) && all_chars (fun a => negb (is_space a)) s.

(** [s.upper()] of an ASCII string: the letters [a] to [z] change.
    (Python also maps letters beyond ASCII, some of them to ASCII
    letters; the properties below are stated for ASCII strings.) *)
Definition upper_char (a : ascii) : ascii :=
  let n := nat_of_ascii a in
  if ((97 <=? n) && (n <=? 122))%nat then ascii_of_nat (n - 32) else a.

Fixpoint upper (s : string) : string :=
  match s with
  | EmptyString => EmptyString
  | String a rest => String (upper_char a) (upper rest)
  end.

End Py.

(** ** The local directory and the readings table *)

Abbreviation bytes := (list Byte.byte).
Abbreviation directory := (gmap string bytes).

(** One line of the table [pv_readings] of [pv_data.db]; a [REAL] column
    holds a number or [NULL] ([None]). *)
Record pv_row := {
  row_id : Z;
  row_timestamp : Z;            (* seconds, the clock of CURRENT_TIMESTAMP *)
  row_live_power : option float;
  row_energy_today : option float;
  row_ac_power : option float;
  row_dc_power : option float;
  row_efficiency : option float;
  row_uv_index : option float;
  row_total_energy : option float;
  row_system_temp : option float;
  row_co2_avoided : option float;
  row_ambient_temp : option float;
  row_data_source : string
}.

(** What both programs act on: the files of the working directory (the
    log of the monitor apart, which is kept as a list of events) and the
    readings table. *)
Record world := {
  files : directory;
  pv_readings : list pv_row
}.

Definition set_files (fs : directory) (w : world) : world :=
  {| files := fs; pv_readings := pv_readings w |}.

(** ** One FTP retrieval

    Both programs fetch the remote file with the same statements:
    connect, [login], [cwd] to the remote directory, open the local path
    with mode ['wb'] and let [retrbinary] hand every received block to
    [f.write]; [quit] is attempted last and its failure is swallowed. *)

Module Ftp.

(** What the server and the local disk answer during one retrieval.  A
    field [Some e] is the exception raised at that step.  [blocks] is the
    remote file as the blocks the server sends; [retr_abort = Some (n, e)]
    breaks the transfer with [e] once [n] blocks were received. *)
Record transfer := {
  connect_err : option string;
  login_err : option string;
  cwd_err : option string;
  open_err : option string;
  blocks : list bytes;
  retr_abort : option (nat * string)
}.

(** The complete remote content. *)
Definition remote_content (t : transfer) : bytes := concat (blocks t).

(** The bytes handed to [f.write] before the transfer ends or breaks. *)
Definition received (t : transfer) : bytes :=
  match retr_abort t with
  | Some (n, _) => concat (take n (blocks t))
  | None => concat (blocks t)
  end.

(** The directory right after [open(path, 'wb')]: the file exists and is
    empty, whatever it held. *)
Definition opened (path : string) (fs : directory) : directory :=
  <[path := []]> fs.

(** Whether the call gets as far as opening the local file. *)
Definition reaches_open (t : transfer) : bool :=
  match connect_err t, login_err t, cwd_err t, open_err t with
  | None, None, None, None => true
  | _, _, _, _ => false
  end.

(** The statements shared by [download_to] and [_download_ftp_csv], up to
    the end of the [finally] clause.  The [with] block closes the file on
    every exit, so what was received is on disk afterwards. *)
Definition retrieve (path : string) (t : transfer) (fs : directory)
  : result string unit * directory :=
  match connect_err t with
  | Some e => (Raised e, fs)
  | None =>
      match login_err t with
      | Some e => (Raised e, fs)
      | None =>
          match cwd_err t with
          | Some e => (Raised e, fs)
          | None =>
              match open_err t with
              | Some e => (Raised e, fs)
              | None =>
                  let fs' := <[path := received t]> (opened path fs) in
                  match retr_abort t with
                  | Some (_, e) => (Raised e, fs')
                  | None => (Ok tt, fs')
                  end
              end
          end
      end
  end.

(** The directory as an observer finds it while the call runs: before
    the file is opened, once it is opened, and when the call is over. *)
Definition observations (path : string) (t : transfer) (fs : directory)
  : list directory :=
  if reaches_open t then [fs; opened path fs; (retrieve path t fs).2]
  else [fs].

End Ftp.

(** ** [ftp_monitor.py] *)

Module Monitor.
Import Ftp.

Definition PATH : string := "pvdaten/pv.csv".
Definition LOCAL : string := "pv.csv".
Definition SNAP_DIR : string := "pv_csv_snapshots".
Definition LOG_FILE : string := "ftp_monitor.log".

(** What a tick leaves behind besides the files: the messages given to
    [log] (without their time stamp) and the calls of [download_to].
    [log] prints each message and appends it to [LOG_FILE]; the lines of
    that file are these [Log] events, and the directory of the model is
    the working directory without it.  What is said below of the files
    is therefore said of the paths other than [LOG_FILE]. *)
Inductive event :=
| Log (msg : string)
| Download (path : string) (ok : bool).

(** The answer to the [MDTM] command: an exception somewhere in the
    session, or the reply line (and then what [quit] does). *)
Inductive mdtm_session :=
| MdtmRaises (e : string)
| MdtmReply (resp : string) (quit_err : option string).

Definition get_mdtm (s : mdtm_session) : option string * list event :=
  match s with
  | MdtmRaises e => (None, [Log ("MDTM error: " +:+ e)])
  | MdtmReply resp (Some e) => (None, [Log ("MDTM error: " +:+ e)])
  | MdtmReply resp None =>
      if Py.startswith resp "213 " then
        match Py.split_ws resp !! 1%nat with
        | Some token => (Some token, [])
        | None => (None, [Log "MDTM error: list index out of range"])
        end
      else (None, [])
  end.

(** [download_to(path)]: the retrieval into [path]; an exception is
    logged (an event here, a line of [LOG_FILE] on the disk) and [False]
    is returned. *)
Definition download_to (path : string) (t : transfer) (fs : directory)
  : bool * directory * list event :=
  match retrieve path t fs with
  | (Ok _, fs') => (true, fs', [Download path true])
  | (Raised e, fs') =>
      (false, fs', [Log ("Download error: " +:+ e); Download path false])
  end.

(** [os.path.join(SNAP_DIR, f"pv_{mdtm}.csv")] *)
Definition snap_name (mdtm : string) : string :=
  SNAP_DIR +:+ "/" +:+ "pv_" +:+ mdtm +:+ ".csv".

(** The state of the loop: the variable [prev_mdtm] of [main], the world,
    and the events so far (latest last). *)
Record monitor := {
  prev_mdtm : option string;
  disk : world;
  events : list event
}.

(** What the network answers during one tick: the probe, and the at most
    two retrievals, in the order they are made. *)
Record tick := {
  probe : mdtm_session;
  first_retrieval : transfer;
  second_retrieval : transfer
}.

Definition _one_check (iteration_label : string) (k : tick) (m : monitor)
  : monitor :=
  let ev0 := [Log (iteration_label +:+ ": checking MDTM")] in
  let '(found, ev1) := get_mdtm (probe k) in
  match found with
  | None =>
      {| prev_mdtm := prev_mdtm m;
         disk := disk m;
         events := events m ++ ev0 ++ ev1 ++
           [Log "Could not get MDTM (server may not support it or connection failed)"] |}
  | Some mdtm =>
      let ev2 := [Log ("MDTM: " +:+ mdtm)] in
      let fs := files (disk m) in
      let '(fs', ev3) :=
        match prev_mdtm m with
        | None =>
            let '(ok, fs1, d1) := download_to LOCAL (first_retrieval k) fs in
            if ok then
              let '(_, fs2, d2) :=
                download_to (snap_name mdtm) (second_retrieval k) fs1 in
              (fs2, [Log "Initial fetch: downloading file"] ++ d1 ++ d2 ++
                    [Log ("Saved initial snapshot: " +:+ snap_name mdtm)])
            else
              (fs1, [Log "Initial fetch: downloading file"] ++ d1 ++
                    [Log "Initial download failed"])
        | Some prev =>
            if bool_decide (mdtm ≠ prev) then
              let announce :=
                Log ("Change detected (prev=" +:+ prev +:+
                     ") -> downloading new snapshot") in
              let '(ok, fs1, d1) :=
                download_to (snap_name mdtm) (first_retrieval k) fs in
              if ok then
                let '(_, fs2, d2) :=
                  download_to LOCAL (second_retrieval k) fs1 in
                (fs2, [announce] ++ d1 ++ d2 ++
                      [Log ("Saved snapshot: " +:+ snap_name mdtm)])
              else
                (fs1, [announce] ++ d1 ++ [Log "Snapshot download failed"])
            else
              (fs, [Log "No change detected"])
        end in
      {| prev_mdtm := Some mdtm;
         disk := set_files fs' (disk m);
         events := events m ++ ev0 ++ ev1 ++ ev2 ++ ev3 |}
  end.

(** The label of the [i]-th check (from 0) of a run of [iterations]. *)
Definition iteration_label (iterations : Z) (i : nat) : string :=
  if iterations <=? 0
  then "Iteration " +:+ pretty (S i) +:+ " (continuous)"
  else "Iteration " +:+ pretty (S i) +:+ "/" +:+ pretty iterations.

Fixpoint checks (iterations : Z) (i : nat) (ks : list tick) (m : monitor)
  : monitor :=
  match ks with
  | [] => m
  | k :: ks' =>
      checks iterations (S i) ks' (_one_check (iteration_label iterations i) k m)
  end.

(** [main(iterations, interval)] on the ticks [ks] the network offers:
    [iterations] checks when it is positive, otherwise one check after
    the other without end, of which [ks] is the part observed.  The
    directory of the snapshots is made first ([ensure_dir]); the pauses
    between checks change nothing in the state, and [_one_check] as
    modelled raises nothing for the [except] around it to catch. *)
Definition main (iterations : Z) (ks : list tick) (w : world) : monitor :=
  let start := {| prev_mdtm := None; disk := w; events := [] |} in
  if iterations <=? 0 then checks iterations 0 ks start
  else checks iterations 0 (take (Z.to_nat iterations) ks) start.

(** The paths given to [download_to] among some events. *)
Definition downloads (evs : list event) : list string :=
  omap (fun e => match e with Download path _ => Some path | Log _ => None end) evs.

(** The events that happened between two states of the loop. *)
Definition during (before after : monitor) : list event :=
  drop (length (events before)) (events after).

End Monitor.

(** ** The table read from [pv.csv] *)

Module Frame.

(** A cell of the table, through the three calls the program makes on
    it: [pd.notna(x)], [float(x)] ([None] when it raises) and [str(x)]. *)
Record cell := {
  notna : bool;
  to_float : option float;
  to_str : string
}.

(** A number read by pandas; the missing value is NaN. *)
Definition numeric (x : float) (shown : string) : cell :=
  {| notna := negb (PrimFloat.is_nan x); to_float := Some x; to_str := shown |}.

Definition missing : cell := numeric PrimFloat.nan "nan".

(** A text that [float] refuses. *)
Definition text (s : string) : cell :=
  {| notna := true; to_float := None; to_str := s |}.

Record DataFrame := {
  columns : list string;
  rows : list (list cell)
}.

(** What [pd.read_csv(data_file)] makes of the downloaded file. *)
Inductive read_csv :=
| ReadRaises (e : string)
| ReadFrame (df : DataFrame).

(** The exceptions of the parsing block. *)
Inductive exn :=
| ReadError (e : string)      (* raised by [pd.read_csv] *)
| IndexError                  (* [df.iloc[-1]] on a table without row *)
| KeyError (column : string)  (* [row[c]] without such a label *)
| FloatError (column : string). (* [float(x)] on what is no number *)

(** A row: the cells under their column labels. *)
Definition series := list (string * cell).

(** [df.iloc[-1]] *)
Definition iloc_last (df : DataFrame) : result exn series :=
  match last (rows df) with
  | Some r => Ok (zip (columns df) r)
  | None => Raised IndexError
  end.

(** [c in row] and [row[c]] *)
Fixpoint lookup_label (row : series) (c : string) : option cell :=
  match row with
  | [] => None
  | (label, x) :: rest =>
      if bool_decide (label = c) then Some x else lookup_label rest c
  end.

Definition getitem (row : series) (c : string) : result exn cell :=
  match lookup_label row c with
  | Some x => Ok x
  | None => Raised (KeyError c)
  end.

(** [float(x)] for the cell [x] of column [c] *)
Definition float_of (c : string) (x : cell) : result exn float :=
  match to_float x with
  | Some v => Ok v
  | None => Raised (FloatError c)
  end.

End Frame.

(** ** [app.py]: parsing, logging, statistics *)

Module App.
Import Ftp Frame.

(** [sorted(l, key=key)]: ascending by key, equal keys in their order
    of arrival. *)
Section Sorted.
Context {A : Type} (key : A -> Z).

Fixpoint insert_by (x : A) (l : list A) : list A :=
  match l with
  | [] => [x]
  | y :: l' => if key x <=? key y then x :: y :: l' else y :: insert_by x l'
  end.

Definition sorted (l : list A) : list A := foldr insert_by [] l.

(** The order that [sorted] establishes. *)
Definition by_key (a b : A) : Prop := key a <= key b.
End Sorted.

(** The local function of [fetch_pv_data]: the third piece of the name
    as an integer, [10**9] when there is none or [int] refuses it. *)
Definition _ptot_index (col : string) : Z :=
  match Py.split_on "_" col !! 2%nat with
  | Some piece =>
      match Py.int piece with
      | Some n => n
      | None => 10 ^ 9
      end
  | None => 10 ^ 9
  end.

(** The integer that [_ptot_index] finds in the name, if it finds one. *)
Definition embedded_index (col : string) : option Z :=
  Py.split_on "_" col !! 2%nat ≫= Py.int.

Definition is_prod_col (c : string) : bool :=
  Py.startswith c "energy_ptot_" && Py.endswith c "_kWh".

(** [prod_cols], after the sort. *)
Definition prod_cols (df : DataFrame) : list string :=
  sorted _ptot_index (filter (fun c => is_prod_col c = true) (columns df)).

(** [[float(row[c]) for c in prod_cols if pd.notna(row[c])]] *)
Fixpoint production_values (row : series) (cols : list string)
  : result exn (list float) :=
  match cols with
  | [] => Ok []
  | c :: cols' =>
      x <-! getitem row c;
      if notna x then
        v <-! float_of c x;
        vs <-! production_values row cols';
        Ok (v :: vs)
      else production_values row cols'
  end.

(** The value that column [c] gives to the curve, if it gives one. *)
Definition valid_value (row : series) (c : string) : option float :=
  x ← lookup_label row c; if notna x then to_float x else None.

(** A value of the list under ['values']: the parsed curve holds floats,
    the curve of the fallback holds the integer [0]. *)
Inductive number := PyInt (z : Z) | PyFloat (x : float).

(** A value of the list under ['hours']: a position in the curve, or
    today's date at a full hour. *)
Inductive hour := Position (i : nat) | ClockHour (h : nat).

Record curve := {
  hours : list hour;
  values : list number
}.

(** The dictionary that [fetch_pv_data] returns; the two last keys are
    absent from the fallback. *)
Record reading := {
  live_power : float;
  energy_today : float;
  ac_power : float;
  dc_power : float;
  efficiency : float;
  uv_index : float;
  total_energy : float;
  system_temp : float;
  co2_avoided : float;
  ambient_temp : float;
  production_curve : curve;
  data_timestamp : option string;
  data_source : option string
}.

(** [float(row.get(key, default))] *)
Definition float_get (row : series) (key : string) (default : float)
  : result exn float :=
  match lookup_label row key with
  | Some x => float_of key x
  | None => Ok default
  end.

(** The [try] block of [fetch_pv_data] up to the dictionary [parsed]. *)
Definition parsed (csv : read_csv) (data_source : string)
  : result exn reading :=
  df <-! match csv with
         | ReadRaises e => Raised (ReadError e)
         | ReadFrame df => Ok df
         end;
  row <-! iloc_last df;
  production_values <-! production_values row (prod_cols df);
  let live_power := default 0%float (last production_values) in
  energy_today <-! float_get row "total_energy_kWh" (Py.sum production_values);
  total_energy <-! float_get row "total_energy_kWh" 0%float;
  let co2_avoided := (total_energy * 0.366)%float in
  Ok {| live_power := live_power;
        energy_today := energy_today;
        ac_power := if Py.truthy live_power then (live_power * 0.92)%float else 0%float;
        dc_power := if Py.truthy live_power then (live_power * 1.02)%float else 0%float;
        efficiency := 92%float;
        uv_index := 0%float;
        total_energy := total_energy;
        system_temp := 0%float;
        co2_avoided := co2_avoided;
        ambient_temp := 0%float;
        production_curve :=
          {| hours := Position <$> seq 0 (length production_values);
             values := PyFloat <$> production_values |};
        data_timestamp :=
          Some (from_option to_str "" (lookup_label row "timestamp"));
        data_source := Some data_source |}.

(** The dictionary of the [except] clause. *)
Definition fallback : reading :=
  {| live_power := 0%float;
     energy_today := 0%float;
     ac_power := 0%float;
     dc_power := 0%float;
     efficiency := 0%float;
     uv_index := 0%float;
     total_energy := 0%float;
     system_temp := 0%float;
     co2_avoided := 0%float;
     ambient_temp := 0%float;
     production_curve :=
       {| hours := ClockHour <$> seq 0 24;
          values := replicate 24 (PyInt 0) |};
     data_timestamp := None;
     data_source := None |}.

(** What the page shows through [st.success] and [st.error]. *)
Inductive notice :=
| Connected                   (* the success line after the download *)
| LiveUnavailable             (* 'Live data unavailable' *)
| ConnectHint                 (* 'Connect to THI Wi-Fi ... then refresh.' *)
| ErrorText (e : string)      (* [st.error(str(e))] *)
| ParsingError (e : exn)      (* 'Error parsing pv.csv: ...' *)
| LoggingError (e : string)   (* 'Error logging data: ...' *)
| StatisticsError (e : string). (* 'Error getting statistics: ...' *)

(** The state of a run of the page. *)
Record session := {
  env : world;
  screen : list notice
}.

Definition show (n : list notice) (s : session) : session :=
  {| env := env s; screen := screen s ++ n |}.

(** A float bound to a [REAL] column, as a query reads it back: SQLite
    stores NaN as [NULL] and gives 0.0 back for both zeros. *)
Definition sql_real (x : float) : option float :=
  if PrimFloat.is_nan x then None
  else if PrimFloat.eqb x 0%float then Some 0%float
  else Some x.

(** [INTEGER PRIMARY KEY AUTOINCREMENT] in a table without deletion. *)
Definition next_id (table : list pv_row) : Z :=
  1 + foldr (fun r acc => Z.max (row_id r) acc) 0 table.

Definition row_of (data : reading) (source : string) (id now : Z) : pv_row :=
  {| row_id := id;
     row_timestamp := now;
     row_live_power := sql_real (live_power data);
     row_energy_today := sql_real (energy_today data);
     row_ac_power := sql_real (ac_power data);
     row_dc_power := sql_real (dc_power data);
     row_efficiency := sql_real (efficiency data);
     row_uv_index := sql_real (uv_index data);
     row_total_energy := sql_real (total_energy data);
     row_system_temp := sql_real (system_temp data);
     row_co2_avoided := sql_real (co2_avoided data);
     row_ambient_temp := sql_real (ambient_temp data);
     row_data_source := source |}.

(** [log_data(data, source)].  [fault] is the exception that
    [sqlite3.connect], [execute] or [commit] raises, if any: the row is
    then not in the table.  [now] is the clock of the database. *)
Definition log_data (data : reading) (source : string)
    (fault : option string) (now : Z) (s : session)
  : result string unit * session :=
  match fault with
  | Some e => (Ok tt, show [LoggingError e] s)
  | None =>
      let table := pv_readings (env s) in
      let row := row_of data source (next_id table) now in
      (Ok tt,
       {| env := {| files := files (env s); pv_readings := table ++ [row] |};
          screen := screen s |})
  end.

(** How a call of [fetch_pv_data] ends: [st.stop()] ends the run of the
    page, otherwise a dictionary is returned. *)
Inductive outcome :=
| Stopped
| Returned (data : reading).

Definition data_file : string := "pv.csv".

(** The local function [_download_ftp_csv(local_path)]: the retrieval,
    with its exceptions left to the caller. *)
Definition _download_ftp_csv (local_path : string) (t : transfer) (fs : directory)
  : result string unit * directory :=
  retrieve local_path t fs.

Definition fetch_pv_data (t : transfer) (csv : read_csv)
    (fault : option string) (now : Z) (s : session)
  : outcome * session :=
  let data_source := "live" in
  match _download_ftp_csv data_file t (files (env s)) with
  | (Raised e, fs) =>
      (Stopped,
       show [LiveUnavailable; ConnectHint; ErrorText e]
            {| env := set_files fs (env s); screen := screen s |})
  | (Ok _, fs) =>
      let s1 := show [Connected]
                     {| env := set_files fs (env s); screen := screen s |} in
      match parsed csv data_source with
      | Ok parsed =>
          let '(_, s2) := log_data parsed data_source fault now s1 in
          (Returned parsed, s2)
      | Raised e =>
          (Returned fallback, show [ParsingError e] s1)
      end
  end.

(** A file of fewer than two lines: pandas raises on a file without
    header line, and reads a header line alone as a table without row. *)
Definition fewer_than_two_rows (csv : read_csv) : bool :=
  match csv with
  | ReadRaises _ => true
  | ReadFrame df => bool_decide (rows df = [])
  end.

(** Two floats that Python does not tell apart: the same value, or two
    values that [==] equates (the two zeros). *)
Definition same_number (x y : float) : Prop :=
  x = y \/ PrimFloat.eqb x y = true.

(** *** [get_data_statistics] *)

(** The seconds, counted from 1970, at which the dates of SQLite begin
    (noon of -4713-11-24) and end (the last second of 9999), and at which
    the year 0000 begins. *)
Definition first_date : Z := -210866760000.
Definition last_date : Z := 253402300799.
Definition year_zero : Z := -62167219200.

(** A time that SQLite writes as [YYYY-MM-DD HH:MM:SS]; the order of
    such texts is the order of the times. *)
Definition datable (t : Z) : Prop := year_zero <= t <= last_date.

(** A table whose rows were all written at such times. *)
Definition dated (table : list pv_row) : Prop :=
  Forall (fun r => datable (row_timestamp r)) table.

(** Whether [datetime('now', '-{hours} hours')] is a date: the modifier
    [--5 hours] of a negative [hours] is none, and a result outside the
    dates of SQLite is [NULL]. *)
Definition answerable (hours now : Z) : Prop :=
  0 <= hours /\ first_date <= now - 3600 * hours <= last_date.

(** The rows that [WHERE timestamp >= datetime('now', '-{hours} hours')]
    keeps, for the clock [now] (in seconds) and rows of a [dated] table:
    none when the bound is [NULL]. *)
Definition in_window (hours now : Z) (r : pv_row) : bool :=
  (0 <=? hours)
  && (first_date <=? now - 3600 * hours)
  && (now - 3600 * hours <=? last_date)
  && (now - 3600 * hours <=? row_timestamp r).

Definition window (hours now : Z) (table : list pv_row) : list pv_row :=
  filter (fun r => in_window hours now r = true) table.

Definition of_count (n : nat) : float :=
  PrimFloat.of_uint63 (Uint63.of_Z (Z.of_nat n)).

(** The aggregates of SQL skip [NULL] and are [NULL] on no value.  Sums
    are taken from the left (recent versions of SQLite compensate the
    rounding of a sum of reals). *)
Definition sql_sum (xs : list (option float)) : option float :=
  match omap id xs with
  | [] => None
  | vs => Some (fold_left PrimFloat.add vs 0%float)
  end.

Definition sql_avg (xs : list (option float)) : option float :=
  (fun total => (total / of_count (length (omap id xs)))%float) <$> sql_sum xs.

Definition sql_max (xs : list (option float)) : option float :=
  match omap id xs with
  | [] => None
  | v :: vs => Some (fold_left (fun a b => if (a <? b)%float then b else a) vs v)
  end.

Definition sql_min (xs : list (option float)) : option float :=
  match omap id xs with
  | [] => None
  | v :: vs => Some (fold_left (fun a b => if (b <? a)%float then b else a) vs v)
  end.

(** [x] divided by the count of all rows: [NULL] when [x] is, and on a
    division by zero. *)
Definition sql_div_count (x : option float) (count : nat) : option float :=
  match x, count with
  | Some v, S _ => Some (v / of_count count)%float
  | _, _ => None
  end.

(** The dictionary of the one line the query returns; [None] is the
    [NULL] of the database, which pandas hands over as no number. *)
Record statistics := {
  reading_count : Z;
  avg_power : option float;
  max_power : option float;
  min_power : option float;
  avg_efficiency : option float;
  avg_daily_energy : option float
}.

Definition select_statistics (rows : list pv_row) : statistics :=
  {| reading_count := Z.of_nat (length rows);
     avg_power := sql_avg (row_live_power <$> rows);
     max_power := sql_max (row_live_power <$> rows);
     min_power := sql_min (row_live_power <$> rows);
     avg_efficiency := sql_avg (row_efficiency <$> rows);
     avg_daily_energy :=
       sql_div_count (sql_sum (row_energy_today <$> rows)) (length rows) |}.

(** [get_data_statistics(hours)]: the dictionary, or the empty one
    ([None]) after an exception [fault] of the database. *)
Definition get_data_statistics (hours : Z) (fault : option string)
    (now : Z) (s : session) : option statistics * session :=
  match fault with
  | Some e => (None, show [StatisticsError e] s)
  | None => (Some (select_statistics (window hours now (pv_readings (env s)))), s)
  end.

(** *** [get_historical_data] and the head of [show_historical_view] *)

(** [get_historical_data(hours)]: the rows of the window, the latest
    first; after an exception [fault] of the database the error is shown
    and an empty table is returned.  Rows of one second come in an order
    that SQL leaves open; here they keep the order of the table. *)
Definition get_historical_data (hours : Z) (fault : option string)
    (now : Z) (s : session) : list pv_row * session :=
  match fault with
  | Some e =>
      ([], show [ErrorText ("Error retrieving historical data: " +:+ e)] s)
  | None =>
      (sorted (fun r => - row_timestamp r)
              (window hours now (pv_readings (env s))), s)
  end.

(** Where the summary cards of the history page take their numbers. *)
Inductive summary :=
| NoHistoryYet                            (* the warning, and the view ends *)
| FromDatabase (stats : statistics)       (* the dictionary of the query *)
| Recomputed (historical_df : list pv_row). (* means and extremes of the table *)

(** [show_historical_view], from the two queries to the choice of the
    statistics; [time_range] is the entry chosen in the select box, each
    query has its own fault and its own reading of the clock. *)
Definition show_historical_view (time_range : Z)
    (fault_history fault_statistics : option string)
    (now_history now_statistics : Z) (s : session) : summary * session :=
  let '(historical_df, s1) :=
    get_historical_data time_range fault_history now_history s in
  match historical_df with
  | [] => (NoHistoryYet, s1)
  | _ :: _ =>
      let '(stats, s2) :=
        get_data_statistics time_range fault_statistics now_statistics s1 in
      match stats with
      | None => (Recomputed historical_df, s2)
      | Some d =>
          if reading_count d =? 0 then (Recomputed historical_df, s2)
          else (FromDatabase d, s2)
      end
  end.

End App.

(** ** [validate.py]: the schema check and the overall status *)

Module Validate.
Import Frame App.

(** What a check reports besides its status. *)
Inductive details :=
| NotFound                                  (* 'pv.csv not found in repo' *)
| MissingColumns (missing shown : list string)
| NoPointColumn                             (* 'No energy_ptot_*_kWh columns found' *)
| Schema (rows ptot : nat) (example_timestamp : string)
| Failure (e : exn)                         (* [repr(e)] *)
| Text (t : string).

Record CheckResult := {
  name : string;
  status : string;
  report : details
}.

(** [_overall_status(results)] *)
Definition _overall_status (results : list CheckResult) : string :=
  let statuses := (fun r => Py.upper (status r)) <$> results in
  if existsb (fun s => bool_decide (s = "FAIL")) statuses then "FAIL"
  else if existsb (fun s => bool_decide (s = "WARN")) statuses then "WARN"
  else if negb (bool_decide (statuses = []))
          && forallb (fun s => bool_decide (s = "SKIP")) statuses then "SKIP"
  else "PASS".

(** [check_pv_csv(project_root)] on the file [pv.csv] of the project:
    [None] when there is no such file, otherwise what [pd.read_csv] makes
    of it. *)
Definition check_pv_csv (file : option read_csv) : CheckResult :=
  match file with
  | None => {| name := "pv.csv schema"; status := "WARN"; report := NotFound |}
  | Some (ReadRaises e) =>
      {| name := "pv.csv schema"; status := "FAIL"; report := Failure (ReadError e) |}
  | Some (ReadFrame df) =>
      let missing :=
        filter (fun c => c ∉ columns df) ["timestamp"; "total_energy_kWh"] in
      let ptot := filter (fun c => is_prod_col c = true) (columns df) in
      match missing, ptot with
      | _ :: _, _ =>
          {| name := "pv.csv schema"; status := "FAIL";
             report := MissingColumns missing (take 30 (columns df)) |}
      | [], [] =>
          {| name := "pv.csv schema"; status := "FAIL"; report := NoPointColumn |}
      | [], _ :: _ =>
          match row <-! iloc_last df; getitem row "timestamp" with
          | Ok x =>
              {| name := "pv.csv schema"; status := "PASS";
                 report := Schema (length (rows df)) (length ptot) (to_str x) |}
          | Raised e =>
              {| name := "pv.csv schema"; status := "FAIL"; report := Failure e |}
          end
      end
  end.

End Validate.

(** ** Concrete inputs

    The situations on which the properties below are tried. *)

Module Sample.
Import Ftp Monitor.

Definition content (s : string) : bytes := String.list_byte_of_string s.

(** A server that delivers [new!] in two blocks. *)
Definition complete : transfer :=
  {| connect_err := None; login_err := None; cwd_err := None; open_err := None;
     blocks := [content "ne"; content "w!"]; retr_abort := None |}.

(** The same transfer, broken after the first block. *)
Definition broken : transfer :=
  {| connect_err := None; login_err := None; cwd_err := None; open_err := None;
     blocks := [content "ne"; content "w!"]; retr_abort := Some (1%nat, "timed out") |}.

(** A server that cannot be reached. *)
Definition unreachable : transfer :=
  {| connect_err := Some "[Errno 111] Connection refused"; login_err := None;
     cwd_err := None; open_err := None; blocks := []; retr_abort := None |}.

(** A directory in which [pv.csv] holds [old]. *)
Definition old_directory : directory := {[ "pv.csv" := content "old" ]}.

Definition old_world : world := {| files := old_directory; pv_readings := [] |}.

(** The loop after a check that saw the token [20240101000000]. *)
Definition seen_first : monitor :=
  {| prev_mdtm := Some "20240101000000"; disk := old_world; events := [] |}.

(** A tick on which the file has the new token [20240102000000] and the
    server then refuses the retrievals. *)
Definition changed_but_unreachable : tick :=
  {| probe := MdtmReply "213 20240102000000" None;
     first_retrieval := unreachable;
     second_retrieval := unreachable |}.

(** A tick on which the file has the token [20240102000000] and the
    server works. *)
Definition changed_and_served : tick :=
  {| probe := MdtmReply "213 20240102000000" None;
     first_retrieval := complete;
     second_retrieval := complete |}.

End Sample.

Module SampleApp.
Import Ftp Frame App Sample.

(** The columns of the specification's example, indices 3, 1, 10, 2. *)
Definition four_points : DataFrame :=
  {| columns := ["timestamp"; "total_energy_kWh"; "energy_ptot_3_kWh";
                 "energy_ptot_1_kWh"; "energy_ptot_10_kWh"; "energy_ptot_2_kWh"];
     rows := [[text "2024-01-02 10:00:00"; numeric 100 "100.0"; numeric 3 "3.0";
               numeric 1 "1.0"; numeric 5 "5.0"; numeric 2 "2.0"]] |}.

(** A point with the index 2000000000, then a point whose index is no
    integer. *)
Definition large_index : DataFrame :=
  {| columns := ["timestamp"; "total_energy_kWh"; "energy_ptot_2000000000_kWh";
                 "energy_ptot_x_kWh"];
     rows := [[text "2024-01-02 10:00:00"; numeric 100 "100.0"; numeric 2 "2.0";
               numeric 1 "1.0"]] |}.

(** A point whose index is no integer, then the point 7. *)
Definition one_malformed : DataFrame :=
  {| columns := ["timestamp"; "total_energy_kWh"; "energy_ptot_x_kWh";
                 "energy_ptot_7_kWh"];
     rows := [[text "2024-01-02 10:00:00"; numeric 100 "100.0"; numeric 1 "1.0";
               numeric 7 "7.0"]] |}.

(** The table of the specification's scenario, with 5.0 as last point. *)
Definition two_points : DataFrame :=
  {| columns := ["timestamp"; "total_energy_kWh"; "energy_ptot_0_kWh";
                 "energy_ptot_1_kWh"];
     rows := [[text "2024-01-02 10:00:00"; numeric 100 "100.0"; numeric 3 "3.0";
               numeric 5 "5.0"]] |}.

(** A header line and nothing else. *)
Definition header_only : DataFrame :=
  {| columns := ["timestamp"; "total_energy_kWh"; "energy_ptot_0_kWh"];
     rows := [] |}.

(** A table without any point column, and one whose only point is empty. *)
Definition no_point : DataFrame :=
  {| columns := ["timestamp"; "total_energy_kWh"];
     rows := [[text "2024-01-02 10:00:00"; numeric 100 "100.0"]] |}.

Definition empty_point : DataFrame :=
  {| columns := ["timestamp"; "total_energy_kWh"; "energy_ptot_0_kWh"];
     rows := [[text "2024-01-02 10:00:00"; numeric 100 "100.0"; missing]] |}.

(** A plant that produces nothing and has produced nothing. *)
Definition all_zero : DataFrame :=
  {| columns := ["timestamp"; "total_energy_kWh"; "energy_ptot_0_kWh"];
     rows := [[text "2024-01-02 10:00:00"; numeric 0 "0.0"; numeric 0 "0.0"]] |}.

(** A page that starts on an empty database. *)
Definition fresh : session :=
  {| env := {| files := ∅; pv_readings := [] |}; screen := [] |}.

End SampleApp.

Module SampleRun.
Import Ftp Monitor Sample.

(** The loop before its first check. *)
Definition not_started : monitor :=
  {| prev_mdtm := None; disk := old_world; events := [] |}.

(** A tick on which the server does not answer the probe. *)
Definition probe_down : tick :=
  {| probe := MdtmRaises "timed out";
     first_retrieval := complete;
     second_retrieval := complete |}.

(** A tick on which the file has the new token, the snapshot is fetched
    and the refresh of [pv.csv] then fails. *)
Definition served_then_unreachable : tick :=
  {| probe := MdtmReply "213 20240102000000" None;
     first_retrieval := complete;
     second_retrieval := unreachable |}.

(** The loop after a check that saw the token [20240101000000], in a
    directory that also holds a file of the user. *)
Definition with_notes : monitor :=
  {| prev_mdtm := Some "20240101000000";
     disk := {| files := {[ "pv.csv" := content "old";
                            "notes.txt" := content "keep" ]};
                pv_readings := [] |};
     events := [] |}.

(** A tick on which the server reports the token [20240101000000]. *)
Definition unchanged : tick :=
  {| probe := MdtmReply "213 20240101000000" None;
     first_retrieval := complete;
     second_retrieval := complete |}.

End SampleRun.

Module SampleStore.
Import Ftp Frame App Sample SampleApp.

(** A row written at the second [ts] with the power [power]. *)
Definition row_at (id ts : Z) (power : float) : pv_row :=
  {| row_id := id; row_timestamp := ts;
     row_live_power := Some power; row_energy_today := Some 100%float;
     row_ac_power := Some (power * 0.92)%float;
     row_dc_power := Some (power * 1.02)%float;
     row_efficiency := Some 92%float; row_uv_index := Some 0%float;
     row_total_energy := Some 100%float; row_system_temp := Some 0%float;
     row_co2_avoided := Some 36.6%float; row_ambient_temp := Some 0%float;
     row_data_source := "live" |}.

(** The clock of the queries, and rows written ten, five and one hour
    before. *)
Definition noon : Z := 100000.

Definition three_rows : session :=
  {| env := {| files := ∅;
               pv_readings := [row_at 1 (noon - 36000) 1; row_at 2 (noon - 18000) 2;
                               row_at 3 (noon - 3600) 3] |};
     screen := [] |}.

(** A table with a point column that holds a text. *)
Definition text_point : DataFrame :=
  {| columns := ["timestamp"; "total_energy_kWh"; "energy_ptot_0_kWh";
                 "energy_ptot_1_kWh"];
     rows := [[text "2024-01-02 10:00:00"; numeric 100 "100.0"; numeric 3 "3.0";
               text "abc"]] |}.

(** A table whose only point column holds a text. *)
Definition text_only_point : DataFrame :=
  {| columns := ["timestamp"; "total_energy_kWh"; "energy_ptot_0_kWh"];
     rows := [[text "2024-01-02 10:00:00"; numeric 100 "100.0"; text "abc"]] |}.

(** A table without the column of the total energy. *)
Definition no_total : DataFrame :=
  {| columns := ["timestamp"; "energy_ptot_0_kWh"; "energy_ptot_1_kWh"];
     rows := [[text "2024-01-02 10:00:00"; numeric 3 "3.0"; numeric 4 "4.0"]] |}.

End SampleStore.

(** * Properties *)

(** ** The polling loop of [ftp_monitor.py] *)

Section PollLoop.
Import Ftp Monitor.

Lemma set_files_same (w : world) : set_files (files w) w = w.
Proof. by destruct w. Qed.

Lemma during_app (m m' : monitor) (new : list event) :
  events m' = events m ++ new -> during m m' = new.
Proof. intros E. unfold during. by rewrite E, drop_app_length. Qed.

Lemma downloads_app (a b : list event) :
  downloads (a ++ b) = downloads a ++ downloads b.
Proof. apply omap_app. Qed.

(** The probe itself never calls [download_to]. *)
Lemma get_mdtm_downloads s : downloads (get_mdtm s).2 = [].
Proof. unfold get_mdtm. repeat case_match; done. Qed.

(** A check whose probe fails changes nothing but the log. *)
Lemma one_check_probe_none label k m ev :
  get_mdtm (probe k) = (None, ev) ->
  prev_mdtm (_one_check label k m) = prev_mdtm m
  /\ disk (_one_check label k m) = disk m
  /\ downloads (during m (_one_check label k m)) = [].
Proof.
  intros E. pose proof (get_mdtm_downloads (probe k)) as Q.
  unfold _one_check. rewrite E in *. split_and!; [done..|].
  erewrite during_app by reflexivity.
  rewrite !downloads_app. cbn [snd] in Q. by rewrite Q.
Qed.

(** Every check whose probe answers a token stores that token, whatever
    the downloads did. *)
Lemma one_check_stores_token label k m token ev :
  get_mdtm (probe k) = (Some token, ev) ->
  prev_mdtm (_one_check label k m) = Some token.
Proof.
  intros E. unfold _one_check. rewrite E.
  repeat (case_match; cbn); done.
Qed.

(** A check that finds the stored token again: three lines of log. *)
Lemma one_check_unchanged label k m token ev :
  get_mdtm (probe k) = (Some token, ev) ->
  prev_mdtm m = Some token ->
  _one_check label k m =
    {| prev_mdtm := Some token;
       disk := disk m;
       events := events m ++ [Log (label +:+ ": checking MDTM")] ++ ev ++
                 [Log ("MDTM: " +:+ token)] ++ [Log "No change detected"] |}.
Proof.
  intros E P. unfold _one_check. rewrite E, P.
  rewrite bool_decide_false by (intros H; by apply H).
  by rewrite set_files_same.
Qed.

Lemma one_check_unchanged_quiet label k m token ev :
  get_mdtm (probe k) = (Some token, ev) ->
  prev_mdtm m = Some token ->
  disk (_one_check label k m) = disk m
  /\ downloads (during m (_one_check label k m)) = [].
Proof.
  intros E P. rewrite (one_check_unchanged label k m token ev E P).
  split; [done|].
  erewrite during_app by reflexivity.
  pose proof (get_mdtm_downloads (probe k)) as Q. rewrite E in Q.
  rewrite !downloads_app. cbn [snd] in Q. by rewrite Q.
Qed.

(** One call of [download_to] is one [Download] event. *)
Lemma download_to_downloads path t fs :
  downloads (download_to path t fs).2 = [path].
Proof. unfold download_to. by destruct (retrieve path t fs) as [[u|e] fs']. Qed.

(** A check that finds a new token and cannot fetch the snapshot: one
    call of [download_to], for the snapshot, and [pv.csv] is not fetched. *)
Lemma one_check_snapshot_failed label k m prev token ev :
  get_mdtm (probe k) = (Some token, ev) ->
  prev_mdtm m = Some prev ->
  token <> prev ->
  (download_to (snap_name token) (first_retrieval k) (files (disk m))).1.1 = false ->
  downloads (during m (_one_check label k m)) = [snap_name token]
  /\ files (disk (_one_check label k m))
     = (download_to (snap_name token) (first_retrieval k) (files (disk m))).1.2.
Proof.
  intros E P N F.
  pose proof (get_mdtm_downloads (probe k)) as Q. rewrite E in Q. cbn [snd] in Q.
  pose proof (download_to_downloads (snap_name token) (first_retrieval k)
                (files (disk m))) as D.
  unfold _one_check. rewrite E, P. rewrite bool_decide_true by done.
  destruct (download_to (snap_name token) (first_retrieval k) (files (disk m)))
    as [[ok fs1] d1]. cbn [fst snd] in *. subst ok. split; [|done].
  erewrite during_app by reflexivity.
  rewrite !downloads_app, Q, D. done.
Qed.

End PollLoop.

Section PollLoopClaims.
Import Ftp Monitor Sample.

(** C8. After any sequence of checks, a check whose probe answers the
    token that the loop holds as last seen calls [download_to] not once,
    leaves every file and the readings table as they were (nothing is
    appended), and keeps the token. *)
Theorem unchanged_token_triggers_nothing
    (iterations : Z) (i : nat) (ks : list tick) (m : monitor)
    (label : string) (k : tick) (token : string) (ev : list event) :
  let before := checks iterations i ks m in
  let after := _one_check label k before in
  get_mdtm (probe k) = (Some token, ev) ->
  prev_mdtm before = Some token ->
  downloads (during before after) = []
  /\ files (disk after) = files (disk before)
  /\ pv_readings (disk after) = pv_readings (disk before)
  /\ prev_mdtm after = Some token.
Proof.
  intros before after E P.
  destruct (one_check_unchanged_quiet label k before token ev E P) as [D Q].
  subst after. rewrite D. split_and!; try done.
  by eapply one_check_stores_token.
Qed.

(** C8, tried: a run of six checks whose first two probes answer the
    same token downloads nothing on the second. *)
Lemma unchanged_token_triggers_nothing_witness :
  let before :=
    checks 6 0 [changed_and_served]
           {| prev_mdtm := None; disk := old_world; events := [] |} in
  let after := _one_check "Iteration 2/6" changed_and_served before in
  downloads (during before after) = []
  /\ files (disk after) = files (disk before)
  /\ pv_readings (disk after) = pv_readings (disk before)
  /\ prev_mdtm after = Some "20240102000000".
Proof.
  exact (unchanged_token_triggers_nothing 6 0 [changed_and_served]
           {| prev_mdtm := None; disk := old_world; events := [] |}
           "Iteration 2/6" changed_and_served "20240102000000" []
           eq_refl eq_refl).
Defined.

(** C1, as the code has it. When the probe answers a token different from
    the last seen one and the download of the snapshot fails, that check
    has called [download_to] once, for the snapshot, and the loop stores
    the new token all the same; a later check that finds this token again
    calls [download_to] not once and leaves the files as they are. *)
Theorem failed_download_still_stores_token
    (label : string) (k : tick) (m : monitor)
    (prev token : string) (ev : list event) :
  get_mdtm (probe k) = (Some token, ev) ->
  prev_mdtm m = Some prev ->
  token <> prev ->
  (download_to (snap_name token) (first_retrieval k) (files (disk m))).1.1 = false ->
  let after := _one_check label k m in
  downloads (during m after) = [snap_name token]
  /\ prev_mdtm after = Some token
  /\ forall label' k' ev',
       get_mdtm (probe k') = (Some token, ev') ->
       downloads (during after (_one_check label' k' after)) = []
       /\ disk (_one_check label' k' after) = disk after.
Proof.
  intros E P N F after.
  assert (prev_mdtm after = Some token) as T
    by (by eapply one_check_stores_token).
  destruct (one_check_snapshot_failed label k m prev token ev E P N F) as [D _].
  split_and!; [done..|].
  intros label' k' ev' E'.
  destruct (one_check_unchanged_quiet label' k' after token ev' E' T); done.
Qed.

(** C1, tried: the token moves from [20240101000000] to [20240102000000]
    although the server refused the download. *)
Lemma failed_download_still_stores_token_witness :
  let after := _one_check "Iteration 2/6" changed_but_unreachable seen_first in
  downloads (during seen_first after) = ["pv_csv_snapshots/pv_20240102000000.csv"]
  /\ prev_mdtm after = Some "20240102000000"
  /\ forall label' k' ev',
       get_mdtm (probe k') = (Some "20240102000000", ev') ->
       downloads (during after (_one_check label' k' after)) = []
       /\ disk (_one_check label' k' after) = disk after.
Proof.
  refine (failed_download_still_stores_token "Iteration 2/6"
            changed_but_unreachable seen_first
            "20240101000000" "20240102000000" [] eq_refl eq_refl _ eq_refl).
  discriminate.
Defined.

(** C1 fails as stated: the last seen token is [20240101000000], the probe
    answers [20240102000000], the download of the snapshot fails, and the
    loop holds [20240102000000] afterwards; the next check with the same
    answer downloads nothing. *)
Lemma failed_download_token_not_kept :
  let after := _one_check "Iteration 2/6" changed_but_unreachable seen_first in
  prev_mdtm seen_first = Some "20240101000000"
  /\ get_mdtm (probe changed_but_unreachable) = (Some "20240102000000", [])
  /\ downloads (during seen_first after) = ["pv_csv_snapshots/pv_20240102000000.csv"]
  /\ (download_to "pv_csv_snapshots/pv_20240102000000.csv" unreachable
        (files (disk seen_first))).1.1 = false
  /\ prev_mdtm after = Some "20240102000000"
  /\ downloads (during after
        (_one_check "Iteration 3/6" changed_but_unreachable after)) = [].
Proof. vm_compute. repeat split. Qed.

End PollLoopClaims.

(** ** One download *)

Section Download.
Import Ftp Monitor Sample.

Lemma retrieve_before_open path t fs :
  reaches_open t = false ->
  exists e, retrieve path t fs = (Raised e, fs).
Proof.
  unfold reaches_open, retrieve. intros H.
  repeat case_match; simplify_eq; eauto.
Qed.

Lemma retrieve_after_open path t fs :
  reaches_open t = true ->
  retrieve path t fs =
    (match retr_abort t with Some (_, e) => Raised e | None => Ok () end,
     <[path := received t]> fs).
Proof.
  unfold reaches_open, retrieve, opened. intros H.
  repeat case_match; simplify_eq; by rewrite insert_insert_eq.
Qed.

Lemma received_complete t :
  retr_abort t = None -> received t = remote_content t.
Proof. unfold received, remote_content. by intros ->. Qed.

(** What was received is a beginning of the remote content. *)
Lemma received_prefix t : received t `prefix_of` remote_content t.
Proof.
  unfold received, remote_content. destruct (retr_abort t) as [[n e]|]; [|done].
  rewrite <- (take_drop n (blocks t)) at 2. rewrite concat_app.
  by apply prefix_app_r.
Qed.

Lemma download_to_retrieve path t fs :
  (download_to path t fs).1.2 = (retrieve path t fs).2
  /\ ((download_to path t fs).1.1 = true <-> exists u, (retrieve path t fs).1 = Ok u).
Proof.
  unfold download_to. destruct (retrieve path t fs) as [[u|e] fs']; cbn.
  - split; [done|]. split; eauto.
  - split; [done|]. split; [done|]. by intros [u ?].
Qed.

(** C4, as the code has it. [download_to] writes into the destination
    itself and makes no temporary file: no other path changes, but for
    the log to which a failing call adds its line; a call that returns
    [True] leaves the complete remote content; a call that fails before
    the destination is opened leaves the files as they were; once the
    destination is opened it is emptied, and at the end it holds what was
    received, which after a broken transfer is only a beginning of the
    remote content. *)
Theorem download_to_writes_in_place (path : string) (t : transfer) (fs : directory) :
  path <> LOG_FILE ->
  let ok := (download_to path t fs).1.1 in
  let fs' := (download_to path t fs).1.2 in
  (forall p, p <> path -> p <> LOG_FILE -> fs' !! p = fs !! p)
  /\ (ok = true -> fs' !! path = Some (remote_content t))
  /\ (reaches_open t = false ->
        ok = false /\ forall p, p <> LOG_FILE -> fs' !! p = fs !! p)
  /\ (reaches_open t = true ->
        fs' !! path = Some (received t)
        /\ received t `prefix_of` remote_content t
        /\ (ok = true <-> retr_abort t = None)
        /\ (fun d : directory => d !! path) <$> observations path t fs
           = [fs !! path; Some []; fs' !! path]).
Proof.
  intros _ ok fs'. subst ok fs'.
  destruct (download_to_retrieve path t fs) as [-> Hok].
  destruct (reaches_open t) eqn:R.
  - rewrite (retrieve_after_open path t fs R) in *. cbn [fst snd] in *.
    assert ((download_to path t fs).1.1 = true <-> retr_abort t = None) as Hab.
    { rewrite Hok. destruct (retr_abort t) as [[n e]|]; split; try done.
      - by intros [u ?].
      - eauto. }
    split_and!.
    + intros p N _. by rewrite lookup_insert_ne.
    + intros H. apply Hab in H. rewrite lookup_insert_eq.
      by rewrite received_complete.
    + done.
    + intros _. split_and!; [by rewrite lookup_insert_eq | apply received_prefix | done |].
      unfold observations. rewrite R.
      rewrite (retrieve_after_open path t fs R). cbn. unfold opened.
      by rewrite !lookup_insert_eq.
  - destruct (retrieve_before_open path t fs R) as [e He].
    rewrite He in *. cbn [fst snd] in *.
    assert ((download_to path t fs).1.1 = false) as Hf.
    { destruct ((download_to path t fs).1.1); [|done].
      destruct Hok as [[u Hu] _]; [done|discriminate]. }
    split_and!; try done.
    intros H. rewrite Hf in H. discriminate.
Qed.

(** C4, tried on a transfer that completes, on one that breaks after the
    first block and on a server out of reach. *)
Lemma download_to_writes_in_place_witness :
  (download_to "pv.csv" complete old_directory).1.2 !! "pv.csv" = Some (content "new!")
  /\ (download_to "pv.csv" broken old_directory).1.2 !! "pv.csv" = Some (content "ne")
  /\ (download_to "pv.csv" unreachable old_directory).1.2 !! "pv.csv"
     = old_directory !! "pv.csv".
Proof.
  assert ("pv.csv" <> LOG_FILE) as N by discriminate.
  split_and!.
  - exact (proj1 (proj2 (download_to_writes_in_place "pv.csv" complete old_directory N))
             eq_refl).
  - exact (proj1 (proj2 (proj2 (proj2
      (download_to_writes_in_place "pv.csv" broken old_directory N))) eq_refl)).
  - exact (proj2 (proj1 (proj2 (proj2
      (download_to_writes_in_place "pv.csv" unreachable old_directory N))) eq_refl)
      "pv.csv" N).
Defined.

(** C4 fails as stated: [pv.csv] holds [old], the remote file is [new!],
    the transfer breaks after the block [ne].  While the call runs the
    destination is found empty; afterwards it holds [ne], neither the old
    nor the new content, and [download_to] has returned [False]. *)
Lemma broken_transfer_leaves_partial_file :
  old_directory !! "pv.csv" = Some (content "old")
  /\ remote_content broken = content "new!"
  /\ (download_to "pv.csv" broken old_directory).1.1 = false
  /\ (download_to "pv.csv" broken old_directory).1.2 !! "pv.csv" = Some (content "ne")
  /\ (fun fs : directory => fs !! "pv.csv") <$> observations "pv.csv" broken old_directory
     = [Some (content "old"); Some []; Some (content "ne")].
Proof. vm_compute. repeat split. Qed.

End Download.

(** ** Python's [sorted] *)

Section SortedFacts.
Import App.
Context {A : Type} (key : A -> Z).

Lemma insert_by_perm x l : insert_by key x l ≡ₚ x :: l.
Proof.
  induction l as [|y l IH]; cbn; [done|].
  destruct (key x <=? key y); [done|].
  rewrite IH. apply perm_swap.
Qed.

Lemma sorted_perm l : sorted key l ≡ₚ l.
Proof.
  induction l as [|x l IH]; cbn; [done|].
  fold (sorted key l). by rewrite insert_by_perm, IH.
Qed.

Lemma insert_by_sorted x l :
  StronglySorted (by_key key) l -> StronglySorted (by_key key) (insert_by key x l).
Proof.
  induction 1 as [|y l S IH F]; cbn.
  - repeat constructor.
  - destruct (key x <=? key y) eqn:C.
    + apply Z.leb_le in C. constructor; [by constructor|].
      constructor; [done|].
      eapply Forall_impl; [exact F|]. unfold by_key. intros; lia.
    + apply Z.leb_gt in C. constructor; [done|].
      rewrite insert_by_perm. constructor; [unfold by_key; lia | done].
Qed.

Lemma sorted_sorted l : StronglySorted (by_key key) (sorted key l).
Proof.
  induction l as [|x l IH]; cbn; [constructor|].
  by apply insert_by_sorted.
Qed.

(** Stability: what has one key keeps its order. *)
Lemma insert_by_same_key x l :
  filter (fun a => key a = key x) (insert_by key x l)
  = x :: filter (fun a => key a = key x) l.
Proof.
  induction l as [|y l IH]; cbn [insert_by].
  - by rewrite filter_cons_True.
  - destruct (key x <=? key y) eqn:C.
    + by rewrite (filter_cons_True _ x).
    + apply Z.leb_gt in C.
      rewrite !(filter_cons_False _ y) by lia. done.
Qed.

Lemma insert_by_other_key k x l :
  key x <> k ->
  filter (fun a => key a = k) (insert_by key x l) = filter (fun a => key a = k) l.
Proof.
  intros N. induction l as [|y l IH]; cbn [insert_by].
  - by rewrite filter_cons_False.
  - destruct (key x <=? key y).
    + by rewrite (filter_cons_False _ x).
    + destruct (decide (key y = k)).
      * rewrite !(filter_cons_True _ y) by done. by rewrite IH.
      * rewrite !(filter_cons_False _ y) by done. done.
Qed.

Lemma sorted_stable k l :
  filter (fun a => key a = k) (sorted key l) = filter (fun a => key a = k) l.
Proof.
  induction l as [|x l IH]; [done|].
  change (sorted key (x :: l)) with (insert_by key x (sorted key l)).
  destruct (decide (key x = k)) as [<-|N].
  - rewrite insert_by_same_key, filter_cons_True by done. by rewrite IH.
  - rewrite insert_by_other_key, filter_cons_False by done. done.
Qed.

Lemma strongly_sorted_lookup (l : list A) i j a b :
  StronglySorted (by_key key) l ->
  l !! i = Some a -> l !! j = Some b -> (i < j)%nat -> key a <= key b.
Proof.
  intros S. revert i j. induction S as [|x l S IH F]; intros i j Hi Hj Lt.
  - done.
  - destruct j as [|j]; [lia|]. cbn in Hj.
    destruct i as [|i]; cbn in Hi.
    + simplify_eq. rewrite Forall_forall in F. apply F.
      by eapply list_elem_of_lookup_2.
    + eapply IH; [done..|lia].
Qed.

End SortedFacts.

(** ** The parser of [fetch_pv_data] *)

Section Parser.
Import Frame App SampleApp.

(** The dictionary [parsed], from what the block has computed. *)
Lemma parsed_inv csv src r :
  parsed csv src = Ok r ->
  exists df row vs today total,
    csv = ReadFrame df
    /\ iloc_last df = Ok row
    /\ production_values row (prod_cols df) = Ok vs
    /\ float_get row "total_energy_kWh" (Py.sum vs) = Ok today
    /\ float_get row "total_energy_kWh" 0%float = Ok total
    /\ live_power r = default 0%float (last vs)
    /\ energy_today r = today
    /\ total_energy r = total
    /\ co2_avoided r = (total * 0.366)%float
    /\ ac_power r = (if Py.truthy (live_power r) then live_power r * 0.92 else 0)%float
    /\ dc_power r = (if Py.truthy (live_power r) then live_power r * 1.02 else 0)%float
    /\ efficiency r = 92%float
    /\ production_curve r =
         {| hours := Position <$> seq 0 (length vs); values := PyFloat <$> vs |}
    /\ data_source r = Some src.
Proof.
  unfold parsed. intros H.
  destruct csv as [e|df]; [done|]. cbn [bind] in H.
  destruct (iloc_last df) as [row|e] eqn:R; [|done]. cbn [bind] in H.
  destruct (production_values row (prod_cols df)) as [vs|e] eqn:V; [|done].
  cbn [bind] in H.
  destruct (float_get row "total_energy_kWh" (Py.sum vs)) as [today|e] eqn:T;
    [|done]. cbn [bind] in H.
  destruct (float_get row "total_energy_kWh" 0%float) as [total|e] eqn:U;
    [|done]. cbn [bind] in H.
  injection H as <-. exists df, row, vs, today, total. cbn. split_and!; done.
Qed.

(** The curve is made of the valid values, in the order of the columns. *)
Lemma production_values_order row cols vs :
  production_values row cols = Ok vs -> vs = omap (valid_value row) cols.
Proof.
  revert vs. induction cols as [|c cols IH]; intros vs H; cbn in H.
  - by injection H as <-.
  - change (omap (valid_value row) (c :: cols))
      with (match valid_value row c with
            | Some y => y :: omap (valid_value row) cols
            | None => omap (valid_value row) cols
            end).
    unfold getitem, valid_value in *.
    destruct (lookup_label row c) as [x|]; [|done]. cbn in H |- *.
    destruct (notna x).
    + unfold float_of in H. destruct (to_float x) as [v|]; [|done]. cbn in H.
      destruct (production_values row cols) as [vs'|]; [|done]. cbn in H.
      injection H as <-. f_equal. by apply IH.
    + by apply IH.
Qed.

(** The columns whose cell in the row counts for the curve. *)
Lemma production_values_none row cols :
  (forall c, c ∈ cols -> exists x, lookup_label row c = Some x /\ notna x = false) ->
  production_values row cols = Ok [].
Proof.
  induction cols as [|c cols IH]; intros H; cbn; [done|].
  destruct (H c) as (x & L & N); [left|].
  unfold getitem. rewrite L. cbn. rewrite N.
  apply IH. intros c' ?. apply H. by right.
Qed.

(** The first point cell that is a text makes the block raise. *)
Lemma production_values_text row cols c x :
  c ∈ cols ->
  lookup_label row c = Some x -> notna x = true -> to_float x = None ->
  exists e, production_values row cols = Raised e.
Proof.
  intros I L N F. induction cols as [|c' cols IH]; [by apply elem_of_nil in I|].
  cbn [production_values]. unfold getitem.
  destruct (lookup_label row c') as [x'|] eqn:L'; cbn [bind]; [|eauto].
  destruct (decide (c' = c)) as [->|D].
  - rewrite L in L'. injection L' as <-. rewrite N. unfold float_of.
    rewrite F. cbn [bind]. eauto.
  - apply elem_of_cons in I as [->|I]; [done|]. destruct (IH I) as [e E].
    destruct (notna x'); [|eauto].
    destruct (float_of c' x') as [v|e']; cbn [bind]; [|eauto].
    rewrite E. cbn [bind]. eauto.
Qed.

Lemma _ptot_index_embedded c :
  _ptot_index c = default (10 ^ 9) (embedded_index c).
Proof.
  unfold _ptot_index, embedded_index.
  destruct (Py.split_on "_" c !! 2%nat) as [piece|]; cbn; [|done].
  by destruct (Py.int piece).
Qed.

End Parser.

Section ParserClaims.
Import Frame App SampleApp.

(** C3, as the code has it. For a table whose column names are ASCII, the
    point columns are put in ascending order of [_ptot_index], columns of
    one index in the order of the file, and the curve holds their valid
    values in that order (indices 3, 1, 10, 2 give the order 1, 2, 3,
    10).  [_ptot_index] never raises: it is the integer found in the
    name, and [10**9] when there is none.  A column without integer
    therefore comes after every column whose index is below [10**9]. *)
Theorem curve_follows_sorted_indices (df : DataFrame) :
  Forall (fun c => Py.is_ascii c = true) (columns df) ->
  let cols := prod_cols df in
  cols ≡ₚ filter (fun c => is_prod_col c = true) (columns df)
  /\ StronglySorted (by_key _ptot_index) cols
  /\ (forall k, filter (fun c => _ptot_index c = k) cols
               = filter (fun c => _ptot_index c = k)
                   (filter (fun c => is_prod_col c = true) (columns df)))
  /\ (forall c, _ptot_index c = default (10 ^ 9) (embedded_index c))
  /\ (forall i j bad good n,
        cols !! i = Some bad -> cols !! j = Some good ->
        embedded_index bad = None -> embedded_index good = Some n ->
        n < 10 ^ 9 -> (j < i)%nat)
  /\ (forall src r,
        parsed (ReadFrame df) src = Ok r ->
        exists row, iloc_last df = Ok row
          /\ values (production_curve r) = PyFloat <$> omap (valid_value row) cols)
  /\ _ptot_index <$> prod_cols four_points = [1; 2; 3; 10].
Proof.
  intros _ cols. subst cols. unfold prod_cols. split_and!.
  - apply sorted_perm.
  - apply sorted_sorted.
  - intros k. apply sorted_stable.
  - apply _ptot_index_embedded.
  - intros i j bad good n Hi Hj Hb Hg Hn.
    destruct (decide (j < i)%nat) as [|N]; [done|]. exfalso.
    assert (i <> j) as D.
    { intros ->. rewrite Hi in Hj. simplify_eq. }
    pose proof (strongly_sorted_lookup _ptot_index _ i j bad good
                  (sorted_sorted _ptot_index _) Hi Hj ltac:(lia)) as L.
    rewrite !_ptot_index_embedded, Hb, Hg in L. cbn in L. lia.
  - intros src r H. apply parsed_inv in H.
    destruct H as (df' & row & vs & today & total & E & R & V & _ & _ & _ & _ & _ & _ & _ & _ & _ & C & _).
    injection E as <-. exists row. split; [done|]. rewrite C. cbn.
    f_equal. by apply production_values_order.
  - vm_compute. reflexivity.
Qed.

(** C3, tried: the column [energy_ptot_x_kWh] comes after the point 7 that
    followed it in the file. *)
Lemma curve_follows_sorted_indices_witness :
  prod_cols one_malformed !! 1%nat = Some "energy_ptot_x_kWh"
  /\ prod_cols one_malformed !! 0%nat = Some "energy_ptot_7_kWh"
  /\ embedded_index "energy_ptot_x_kWh" = None
  /\ embedded_index "energy_ptot_7_kWh" = Some 7
  /\ (0 < 1)%nat.
Proof.
  split_and!; [reflexivity..|].
  refine (proj1 (proj2 (proj2 (proj2 (proj2
            (curve_follows_sorted_indices one_malformed _)))))
          1%nat 0%nat "energy_ptot_x_kWh" "energy_ptot_7_kWh" 7
          eq_refl eq_refl eq_refl eq_refl _).
  - repeat constructor.
  - reflexivity.
Defined.

(** C3 fails as stated: of the point 2000000000 and a point whose index
    is no integer, the second gets the index [10**9] and comes first, in
    the columns and in the curve. *)
Lemma unparsable_index_not_last :
  filter (fun c => is_prod_col c = true) (columns large_index)
    = ["energy_ptot_2000000000_kWh"; "energy_ptot_x_kWh"]
  /\ embedded_index "energy_ptot_x_kWh" = None
  /\ embedded_index "energy_ptot_2000000000_kWh" = Some 2000000000
  /\ prod_cols large_index = ["energy_ptot_x_kWh"; "energy_ptot_2000000000_kWh"]
  /\ (fun r => values (production_curve r)) <$> to_option (parsed (ReadFrame large_index) "live")
     = Some [PyFloat 1; PyFloat 2].
Proof. vm_compute. repeat split. Qed.

(** [float(row.get(key, default))] raises or not whatever the default. *)
Lemma float_get_default row key d d' v :
  float_get row key d = Ok v -> exists v', float_get row key d' = Ok v'.
Proof.
  unfold float_get. destruct (lookup_label row key); eauto.
Qed.

(** C9, as the code has it. In every reading parsed from a table with
    ASCII column names, [live_power] is the last value of the curve, the
    curve being the valid values of the point columns in ascending order
    of their index, and 0.0 when the curve is empty.  A table with a row
    in which no point column has a value is parsed without error, given
    that its total energy, if present, is a number: the curve is empty
    and [live_power] is 0.0.  A point cell that is present and is no
    number is an error: the parsing block raises. *)
Theorem live_power_is_last_point :
  (forall df src r,
      Forall (fun c => Py.is_ascii c = true) (columns df) ->
      parsed (ReadFrame df) src = Ok r ->
      exists row vs,
        iloc_last df = Ok row
        /\ prod_cols df ≡ₚ filter (fun c => is_prod_col c = true) (columns df)
        /\ StronglySorted (by_key _ptot_index) (prod_cols df)
        /\ vs = omap (valid_value row) (prod_cols df)
        /\ values (production_curve r) = PyFloat <$> vs
        /\ live_power r = default 0%float (last vs))
  /\ (forall df row src total,
        iloc_last df = Ok row ->
        (forall c, c ∈ prod_cols df ->
           exists x, lookup_label row c = Some x /\ notna x = false) ->
        float_get row "total_energy_kWh" 0%float = Ok total ->
        exists r, parsed (ReadFrame df) src = Ok r
          /\ live_power r = 0%float
          /\ production_curve r = {| hours := []; values := [] |})
  /\ (forall df row c x src,
        iloc_last df = Ok row ->
        c ∈ prod_cols df ->
        lookup_label row c = Some x -> notna x = true -> to_float x = None ->
        exists e, parsed (ReadFrame df) src = Raised e).
Proof.
  split_and!.
  - intros df src r _ H. apply parsed_inv in H.
    destruct H as (df' & row & vs & today & total & E & R & V & _ & _ & L & _ & _ & _ & _ & _ & _ & C & _).
    injection E as <-. exists row, vs. split_and!; [done| | | |by rewrite C|done].
    + apply sorted_perm.
    + apply sorted_sorted.
    + by apply production_values_order.
  - intros df row src total R N T.
    pose proof (production_values_none row (prod_cols df) N) as V.
    destruct (float_get_default row "total_energy_kWh" 0%float (Py.sum []) total T)
      as [today T'].
    unfold parsed. cbn [bind]. rewrite R. cbn [bind]. rewrite V. cbn [bind].
    rewrite T'. cbn [bind]. rewrite T. cbn [bind].
    eexists. split; [reflexivity|]. by cbn.
  - intros df row c x src R I L N F.
    destruct (production_values_text row (prod_cols df) c x I L N F) as [e E].
    exists e. unfold parsed. cbn [bind]. rewrite R. cbn [bind]. by rewrite E.
Qed.

(** C9, tried: with the indices 3, 1, 10, 2 the last value is the one of
    the column 10; a table without point column and a table whose only
    point is empty give 0.0 and an empty curve. *)
Lemma live_power_is_last_point_witness :
  (exists r, parsed (ReadFrame four_points) "live" = Ok r
     /\ last (prod_cols four_points) = Some "energy_ptot_10_kWh"
     /\ live_power r = 5%float
     /\ exists row vs,
          iloc_last four_points = Ok row
          /\ vs = omap (valid_value row) (prod_cols four_points)
          /\ live_power r = default 0%float (last vs))
  /\ (exists r, parsed (ReadFrame no_point) "live" = Ok r
        /\ live_power r = 0%float
        /\ production_curve r = {| hours := []; values := [] |})
  /\ (exists r, parsed (ReadFrame empty_point) "live" = Ok r
        /\ live_power r = 0%float
        /\ production_curve r = {| hours := []; values := [] |}).
Proof.
  split_and!.
  - eexists. split; [reflexivity|]. split; [reflexivity|]. split; [reflexivity|].
    destruct (proj1 live_power_is_last_point four_points "live" _
                ltac:(repeat constructor) eq_refl)
      as (row & vs & R & _ & _ & V & _ & L).
    exists row, vs. split_and!; [exact R | exact V | exact L].
  - refine (proj1 (proj2 live_power_is_last_point) no_point _ "live" 100%float
              eq_refl _ eq_refl).
    intros c H. vm_compute in H. by apply elem_of_nil in H.
  - refine (proj1 (proj2 live_power_is_last_point) empty_point _ "live" 100%float
              eq_refl _ eq_refl).
    intros c H. vm_compute in H. apply list_elem_of_singleton in H as ->.
    eexists. split; reflexivity.
Defined.

(** C9 fails as stated: a table whose only point column holds a text has
    no valid point column, yet the parsing block raises, the error is
    shown, and the dictionary returned is the fallback with its curve of
    24 points. *)
Lemma no_valid_point_can_be_an_error :
  (fun row => omap (valid_value row) (prod_cols SampleStore.text_only_point))
     <$> to_option (iloc_last SampleStore.text_only_point) = Some []
  /\ parsed (ReadFrame SampleStore.text_only_point) "live"
     = Raised (FloatError "energy_ptot_0_kWh")
  /\ (fetch_pv_data Sample.complete (ReadFrame SampleStore.text_only_point)
        None 0 fresh).1 = Returned fallback
  /\ screen (fetch_pv_data Sample.complete (ReadFrame SampleStore.text_only_point)
        None 0 fresh).2
     = [Connected; ParsingError (FloatError "energy_ptot_0_kWh")]
  /\ length (values (production_curve fallback)) = 24%nat.
Proof. vm_compute. repeat split. Qed.

(** A zero times a finite factor is a zero, which [==] equates with 0.0. *)
Lemma zero_times_finite (x c : float) sg m e :
  Py.truthy x = false ->
  Prim2SF c = S754_finite sg m e ->
  PrimFloat.eqb 0%float (x * c)%float = true.
Proof.
  unfold Py.truthy. intros Z C. apply negb_false_iff in Z.
  rewrite FloatAxioms.eqb_spec in Z. rewrite FloatAxioms.eqb_spec, mul_spec, C.
  change (Prim2SF 0) with (S754_zero false) in *.
  destruct (Prim2SF x) as [s|s| |s mx ex]; cbn in Z |- *;
    try discriminate; try reflexivity; destruct s; discriminate.
Qed.

Lemma scaled_or_zero (x c : float) sg m e :
  Prim2SF c = S754_finite sg m e ->
  same_number (if Py.truthy x then x * c else 0)%float (x * c)%float.
Proof.
  intros C. destruct (Py.truthy x) eqn:T; [by left|].
  right. by eapply zero_times_finite.
Qed.

(** C2, as the code has it. In every reading that the parser produces,
    [co2_avoided] is the double product [total_energy * 0.366], and
    [ac_power] and [dc_power] are [live_power * 0.92] and
    [live_power * 1.02] (as 0.0 when [live_power] is a zero, which [==]
    does not tell from the product).  For [total_energy] 100.0 this is
    36.6 and for [live_power] 5.0 [dc_power] is 5.1; [ac_power] is then
    4.6000000000000005, the double next above 4.6. *)
Theorem derived_fields (csv : read_csv) (src : string) (r : reading) :
  parsed csv src = Ok r ->
  co2_avoided r = (total_energy r * 0.366)%float
  /\ same_number (ac_power r) (live_power r * 0.92)%float
  /\ same_number (dc_power r) (live_power r * 1.02)%float
  /\ (total_energy r = 100%float -> co2_avoided r = 36.6%float)
  /\ (live_power r = 5%float ->
        dc_power r = 5.1%float
        /\ ac_power r = 0x1.2666666666667p+2%float
        /\ ac_power r = PrimFloat.next_up 4.6%float).
Proof.
  intros H. apply parsed_inv in H.
  destruct H as (df & row & vs & today & total & _ & _ & _ & _ & _ & _ & _ & T & C & A & D & _).
  rewrite C, A, D, T. split_and!.
  - done.
  - by eapply scaled_or_zero.
  - by eapply scaled_or_zero.
  - by intros ->.
  - by intros ->.
Qed.

(** C2, tried on the scenario table: total energy 100.0, last point 5.0. *)
Lemma derived_fields_witness :
  exists r, parsed (ReadFrame two_points) "live" = Ok r
    /\ total_energy r = 100%float
    /\ live_power r = 5%float
    /\ co2_avoided r = (total_energy r * 0.366)%float
    /\ same_number (ac_power r) (live_power r * 0.92)%float.
Proof.
  eexists. split; [reflexivity|]. split; [reflexivity|]. split; [reflexivity|].
  split.
  - exact (proj1 (derived_fields (ReadFrame two_points) "live" _ eq_refl)).
  - exact (proj1 (proj2 (derived_fields (ReadFrame two_points) "live" _ eq_refl))).
Defined.

(** C2 fails as stated: with 5.0 as last point, [ac_power] is the double
    4.6000000000000005, which is not the double 4.6 and not [==] to it. *)
Lemma ac_power_of_five_is_not_4_6 :
  exists r, parsed (ReadFrame two_points) "live" = Ok r
    /\ live_power r = 5%float
    /\ ac_power r = 0x1.2666666666667p+2%float
    /\ 4.6%float = 0x1.2666666666666p+2%float
    /\ PrimFloat.eqb (ac_power r) 4.6%float = false
    /\ PrimFloat.ltb 4.6%float (ac_power r) = true.
Proof. eexists. vm_compute. repeat split. Qed.

End ParserClaims.

(** ** [fetch_pv_data], [log_data] and [get_data_statistics] *)

Section Fetch.
Import Ftp Frame App Sample SampleApp.

(** The session once the download has succeeded. *)
Lemma fetch_after_download t csv fault now s u fs :
  _download_ftp_csv data_file t (files (env s)) = (Ok u, fs) ->
  fetch_pv_data t csv fault now s =
    let s1 := show [Connected] {| env := set_files fs (env s); screen := screen s |} in
    match parsed csv "live" with
    | Ok r => (Returned r, (log_data r "live" fault now s1).2)
    | Raised e => (Returned fallback, show [ParsingError e] s1)
    end.
Proof.
  intros R. unfold fetch_pv_data. rewrite R. cbn zeta.
  destruct (parsed csv "live") as [r|e]; [|done].
  by destruct (log_data r "live" fault now _).
Qed.

Lemma retrieve_ok_pair path t fs :
  (_download_ftp_csv path t fs).1 = Ok () ->
  _download_ftp_csv path t fs = (Ok (), (_download_ftp_csv path t fs).2).
Proof. destruct (_download_ftp_csv path t fs) as [o fs']. cbn. by intros ->. Qed.

(** A parsing block that raises: the fallback is returned, the error is
    shown, the table is not touched. *)
Lemma fetch_parse_error t csv fault now s e :
  (_download_ftp_csv data_file t (files (env s))).1 = Ok () ->
  parsed csv "live" = Raised e ->
  (fetch_pv_data t csv fault now s).1 = Returned fallback
  /\ pv_readings (env (fetch_pv_data t csv fault now s).2) = pv_readings (env s)
  /\ screen (fetch_pv_data t csv fault now s).2
     = screen s ++ [Connected; ParsingError e].
Proof.
  intros R P. apply retrieve_ok_pair in R.
  rewrite (fetch_after_download t csv fault now s _ _ R). cbn zeta. rewrite P.
  cbn. split_and!; [done..|]. by rewrite <- app_assoc.
Qed.

Lemma short_csv_raises csv src :
  fewer_than_two_rows csv = true ->
  exists e, parsed csv src = Raised e
    /\ (e = IndexError \/ exists msg, e = ReadError msg).
Proof.
  destruct csv as [msg|df]; cbn; intros H.
  - eexists. split; [reflexivity|]. right. eauto.
  - apply bool_decide_eq_true in H. exists IndexError. split; [|by left].
    unfold parsed, iloc_last. cbn [bind]. by rewrite H.
Qed.

(** [log_data] returns normally in both cases. *)
Lemma log_data_fault data source e now s :
  log_data data source (Some e) now s = (Ok (), show [LoggingError e] s).
Proof. done. Qed.

Lemma log_data_insert data source now s :
  log_data data source None now s =
    (Ok (),
     {| env := {| files := files (env s);
                  pv_readings := pv_readings (env s) ++
                    [row_of data source (next_id (pv_readings (env s))) now] |};
        screen := screen s |}).
Proof. done. Qed.

(** A parsing block that succeeds: its dictionary is returned whether the
    row could be written or not. *)
Lemma fetch_parse_ok t csv fault now s r :
  (_download_ftp_csv data_file t (files (env s))).1 = Ok () ->
  parsed csv "live" = Ok r ->
  (fetch_pv_data t csv fault now s).1 = Returned r
  /\ match fault with
     | Some e =>
         pv_readings (env (fetch_pv_data t csv fault now s).2) = pv_readings (env s)
         /\ screen (fetch_pv_data t csv fault now s).2
            = screen s ++ [Connected; LoggingError e]
     | None =>
         pv_readings (env (fetch_pv_data t csv fault now s).2)
           = pv_readings (env s)
             ++ [row_of r "live" (next_id (pv_readings (env s))) now]
         /\ screen (fetch_pv_data t csv fault now s).2 = screen s ++ [Connected]
     end.
Proof.
  intros R P. apply retrieve_ok_pair in R.
  rewrite (fetch_after_download t csv fault now s _ _ R). cbn zeta. rewrite P.
  destruct fault as [e|]; cbn; split_and!; try done. by rewrite <- app_assoc.
Qed.

End Fetch.

Section FetchClaims.
Import Ftp Frame App Sample SampleApp.

(** C5, as the code has it. On a file of fewer than two lines the parsing
    block raises ([pd.read_csv] on a file without header, [df.iloc[-1]] on
    a header alone); [fetch_pv_data] catches this, shows the error and
    returns the all-zero fallback dictionary, and no row is added to the
    table. *)
Theorem short_csv_returns_fallback
    (t : transfer) (csv : read_csv) (fault : option string) (now : Z) (s : session) :
  (_download_ftp_csv data_file t (files (env s))).1 = Ok () ->
  fewer_than_two_rows csv = true ->
  let result := fetch_pv_data t csv fault now s in
  result.1 = Returned fallback
  /\ pv_readings (env result.2) = pv_readings (env s)
  /\ exists e, parsed csv "live" = Raised e
       /\ (e = IndexError \/ exists msg, e = ReadError msg)
       /\ screen result.2 = screen s ++ [Connected; ParsingError e].
Proof.
  intros R F result. subst result.
  destruct (short_csv_raises csv "live" F) as (e & P & K).
  destruct (fetch_parse_error t csv fault now s e R P) as (A & B & C).
  split_and!; [done..|]. by exists e.
Qed.

(** C5, tried on a header line alone. *)
Lemma short_csv_returns_fallback_witness :
  let result := fetch_pv_data complete (ReadFrame header_only) None 0 fresh in
  result.1 = Returned fallback
  /\ pv_readings (env result.2) = pv_readings (env fresh)
  /\ exists e, parsed (ReadFrame header_only) "live" = Raised e
       /\ (e = IndexError \/ exists msg, e = ReadError msg)
       /\ screen result.2 = screen fresh ++ [Connected; ParsingError e].
Proof.
  exact (short_csv_returns_fallback complete (ReadFrame header_only) None 0 fresh
           eq_refl eq_refl).
Defined.

(** C5 fails as stated: on a header line alone, and on a file that
    [pd.read_csv] refuses as empty, [fetch_pv_data] returns a dictionary,
    the fallback, and raises nothing. *)
Lemma header_only_yields_a_reading :
  fewer_than_two_rows (ReadFrame header_only) = true
  /\ (fetch_pv_data complete (ReadFrame header_only) None 0 fresh).1
     = Returned fallback
  /\ (fetch_pv_data complete (ReadRaises "No columns to parse from file") None 0 fresh).1
     = Returned fallback.
Proof. vm_compute. repeat split. Qed.

(** C10, as the code has it. When the parsing block raises,
    [fetch_pv_data] shows the error on the page and returns the fallback
    dictionary: its ten numbers are 0.0, its curve has 24 points, all 0,
    it has no time stamp and no source, and nothing in it tells the error;
    no row is added to the table.  A reading that was parsed always has
    the efficiency 92.0 and the source ['live'], so the fallback is none
    of them. *)
Theorem parse_failure_returns_fallback
    (t : transfer) (csv : read_csv) (fault : option string) (now : Z)
    (s : session) (e : exn) :
  (_download_ftp_csv data_file t (files (env s))).1 = Ok () ->
  parsed csv "live" = Raised e ->
  let result := fetch_pv_data t csv fault now s in
  result.1 = Returned fallback
  /\ pv_readings (env result.2) = pv_readings (env s)
  /\ screen result.2 = screen s ++ [Connected; ParsingError e]
  /\ [live_power fallback; energy_today fallback; ac_power fallback;
      dc_power fallback; efficiency fallback; uv_index fallback;
      total_energy fallback; system_temp fallback; co2_avoided fallback;
      ambient_temp fallback] = replicate 10 0%float
  /\ values (production_curve fallback) = replicate 24 (PyInt 0)
  /\ length (hours (production_curve fallback)) = 24%nat
  /\ data_timestamp fallback = None
  /\ data_source fallback = None
  /\ forall csv' r,
       parsed csv' "live" = Ok r ->
       efficiency r = 92%float /\ data_source r = Some "live".
Proof.
  intros R P result. subst result.
  destruct (fetch_parse_error t csv fault now s e R P) as (A & B & C).
  split_and!; try done.
  intros csv' r H. apply parsed_inv in H.
  destruct H as (df & row & vs & today & total & _ & _ & _ & _ & _ & _ & _ & _ & _ & _ & _ & E & _ & D).
  done.
Qed.

(** C10, tried on a header line alone. *)
Lemma parse_failure_returns_fallback_witness :
  let result := fetch_pv_data complete (ReadFrame header_only) None 0 fresh in
  result.1 = Returned fallback
  /\ pv_readings (env result.2) = pv_readings (env fresh)
  /\ screen result.2 = screen fresh ++ [Connected; ParsingError IndexError].
Proof.
  pose proof (parse_failure_returns_fallback complete (ReadFrame header_only)
                None 0 fresh IndexError eq_refl eq_refl) as H.
  cbv zeta in H. destruct H as (A & B & C & _). cbv zeta. auto.
Defined.

(** C10 fails as stated: the dictionary returned for a plant that reads
    zero everywhere and the dictionary returned after a parse failure
    differ in the efficiency, in the source and in the curve. *)
Lemma fallback_differs_from_zero_reading :
  exists genuine,
    (fetch_pv_data complete (ReadFrame all_zero) None 0 fresh).1 = Returned genuine
    /\ (fetch_pv_data complete (ReadFrame header_only) None 0 fresh).1 = Returned fallback
    /\ [live_power genuine; energy_today genuine; ac_power genuine;
        dc_power genuine; uv_index genuine; total_energy genuine;
        system_temp genuine; co2_avoided genuine; ambient_temp genuine]
       = replicate 9 0%float
    /\ values (production_curve genuine) = [PyFloat 0]
    /\ efficiency genuine = 92%float
    /\ efficiency fallback = 0%float
    /\ PrimFloat.eqb (efficiency genuine) (efficiency fallback) = false
    /\ data_source genuine = Some "live"
    /\ data_source fallback = None
    /\ length (values (production_curve fallback)) = 24%nat.
Proof. eexists. vm_compute. repeat split. Qed.

(** C7, as the code has it. [log_data] never raises: when the database
    fails, the row is not written, the error is shown on the page and the
    call returns normally; when it works, one row is added.
    [fetch_pv_data] returns the parsed dictionary in both cases. *)
Theorem log_data_failure_is_shown_not_raised :
  (forall data source e now s,
      log_data data source (Some e) now s = (Ok (), show [LoggingError e] s)
      /\ pv_readings (env (log_data data source (Some e) now s).2)
         = pv_readings (env s))
  /\ (forall data source now s,
        (log_data data source None now s).1 = Ok ()
        /\ pv_readings (env (log_data data source None now s).2)
           = pv_readings (env s)
             ++ [row_of data source (next_id (pv_readings (env s))) now])
  /\ (forall t csv e now s r,
        (_download_ftp_csv data_file t (files (env s))).1 = Ok () ->
        parsed csv "live" = Ok r ->
        let result := fetch_pv_data t csv (Some e) now s in
        result.1 = Returned r
        /\ pv_readings (env result.2) = pv_readings (env s)
        /\ screen result.2 = screen s ++ [Connected; LoggingError e]).
Proof.
  split_and!.
  - intros. by rewrite log_data_fault.
  - intros. by rewrite log_data_insert.
  - intros t csv e now s r R P result. subst result.
    destruct (fetch_parse_ok t csv (Some e) now s r R P) as (A & B & C). done.
Qed.

(** C7, tried: the scenario table is parsed while the database is locked. *)
Lemma log_data_failure_is_shown_not_raised_witness :
  exists r,
    parsed (ReadFrame two_points) "live" = Ok r
    /\ let result :=
         fetch_pv_data complete (ReadFrame two_points)
                       (Some "database is locked") 0 fresh in
       result.1 = Returned r
       /\ pv_readings (env result.2) = pv_readings (env fresh)
       /\ screen result.2
          = screen fresh ++ [Connected; LoggingError "database is locked"].
Proof.
  eexists. split; [reflexivity|].
  exact (proj2 (proj2 log_data_failure_is_shown_not_raised)
           complete (ReadFrame two_points) "database is locked" 0 fresh _
           eq_refl eq_refl).
Defined.

(** C7 fails as stated: the database is locked, [log_data] returns
    normally and the table stays empty, and [fetch_pv_data] returns the
    same dictionary as when the row is written. *)
Lemma persistence_failure_does_not_propagate :
  exists r,
    parsed (ReadFrame two_points) "live" = Ok r
    /\ (log_data r "live" (Some "database is locked") 0 fresh).1 = Ok ()
    /\ pv_readings (env (log_data r "live" (Some "database is locked") 0 fresh).2) = []
    /\ (fetch_pv_data complete (ReadFrame two_points)
          (Some "database is locked") 0 fresh).1 = Returned r
    /\ (fetch_pv_data complete (ReadFrame two_points) None 0 fresh).1 = Returned r
    /\ pv_readings (env (fetch_pv_data complete (ReadFrame two_points)
          (Some "database is locked") 0 fresh).2) = []
    /\ length (pv_readings (env (fetch_pv_data complete (ReadFrame two_points)
          None 0 fresh).2)) = 1%nat.
Proof. eexists. vm_compute. repeat split. Qed.

(** C6, as the code has it. Over a window without row, and when the
    database answers, the dictionary has the count 0 and every other
    aggregate is [NULL], not 0; nothing is raised and nothing is shown. *)
Theorem empty_window_statistics (hours now : Z) (s : session) :
  window hours now (pv_readings (env s)) = [] ->
  get_data_statistics hours None now s
  = (Some {| reading_count := 0;
             avg_power := None; max_power := None; min_power := None;
             avg_efficiency := None; avg_daily_energy := None |},
     s).
Proof.
  intros W. unfold get_data_statistics. by rewrite W.
Qed.

(** C6, tried on an empty table. *)
Lemma empty_window_statistics_witness :
  get_data_statistics 1 None 0 fresh
  = (Some {| reading_count := 0;
             avg_power := None; max_power := None; min_power := None;
             avg_efficiency := None; avg_daily_energy := None |},
     fresh).
Proof. exact (empty_window_statistics 1 0 fresh eq_refl). Defined.

(** C6 fails as stated: over the last hour of an empty table the count
    is 0 and the average power is [NULL], not 0. *)
Lemma empty_window_aggregates_are_null :
  reading_count <$> (get_data_statistics 1 None 0 fresh).1 = Some 0
  /\ avg_power <$> (get_data_statistics 1 None 0 fresh).1 = Some None
  /\ max_power <$> (get_data_statistics 1 None 0 fresh).1 = Some None
  /\ min_power <$> (get_data_statistics 1 None 0 fresh).1 = Some None
  /\ avg_efficiency <$> (get_data_statistics 1 None 0 fresh).1 = Some None
  /\ avg_daily_energy <$> (get_data_statistics 1 None 0 fresh).1 = Some None.
Proof. vm_compute. repeat split. Qed.

End FetchClaims.

(** ** More on the polling loop *)

Section PollLoopMore.
Import Ftp Monitor Sample SampleRun.

Lemma retrieve_files path t fs p :
  (is_Some (fs !! p) -> is_Some ((retrieve path t fs).2 !! p))
  /\ (p <> path -> (retrieve path t fs).2 !! p = fs !! p).
Proof.
  destruct (reaches_open t) eqn:R.
  - rewrite (retrieve_after_open path t fs R). cbn [snd].
    destruct (decide (p = path)) as [->|N].
    + rewrite lookup_insert_eq. split; [eauto|done].
    + rewrite lookup_insert_ne by done. done.
  - destruct (retrieve_before_open path t fs R) as [e ->]. done.
Qed.

Lemma download_to_files path t fs p :
  (is_Some (fs !! p) -> is_Some ((download_to path t fs).1.2 !! p))
  /\ (p <> path -> (download_to path t fs).1.2 !! p = fs !! p).
Proof.
  destruct (download_to_retrieve path t fs) as [-> _]. apply retrieve_files.
Qed.

(** A snapshot is never the file [pv.csv]. *)
Lemma snap_name_not_local token : snap_name token <> LOCAL.
Proof. unfold snap_name, LOCAL, SNAP_DIR. cbv [String.append]. discriminate. Qed.

(** The files after one check. *)
Lemma one_check_files label k m p :
  (is_Some (files (disk m) !! p) ->
   is_Some (files (disk (_one_check label k m)) !! p))
  /\ (p <> LOCAL -> (forall token, p <> snap_name token) ->
      files (disk (_one_check label k m)) !! p = files (disk m) !! p)
  /\ pv_readings (disk (_one_check label k m)) = pv_readings (disk m).
Proof.
  unfold _one_check.
  destruct (get_mdtm (probe k)) as [[token|] ev]; [|done].
  destruct (prev_mdtm m) as [prev|].
  - destruct (bool_decide (token ≠ prev)); [|done].
    pose proof (download_to_files (snap_name token) (first_retrieval k)
                  (files (disk m)) p) as [A1 A2].
    destruct (download_to (snap_name token) (first_retrieval k) (files (disk m)))
      as [[ok fs1] d1]. cbn [fst snd] in *.
    destruct ok; [|cbn; split_and!; auto].
    pose proof (download_to_files LOCAL (second_retrieval k) fs1 p) as [B1 B2].
    destruct (download_to LOCAL (second_retrieval k) fs1) as [[ok2 fs2] d2].
    cbn [fst snd] in *. cbn. split_and!; auto.
    intros N1 N2. rewrite B2, A2; auto.
  - pose proof (download_to_files LOCAL (first_retrieval k) (files (disk m)) p)
      as [A1 A2].
    destruct (download_to LOCAL (first_retrieval k) (files (disk m)))
      as [[ok fs1] d1]. cbn [fst snd] in *.
    destruct ok; [|cbn; split_and!; auto].
    pose proof (download_to_files (snap_name token) (second_retrieval k) fs1 p)
      as [B1 B2].
    destruct (download_to (snap_name token) (second_retrieval k) fs1)
      as [[ok2 fs2] d2].
    cbn [fst snd] in *. cbn. split_and!; auto.
    intros N1 N2. rewrite B2, A2; auto.
Qed.

(** Events are only added. *)
Lemma one_check_events label k m :
  exists new, events (_one_check label k m) = events m ++ new.
Proof.
  unfold _one_check.
  destruct (get_mdtm (probe k)) as [[token|] ev]; [|eauto].
  destruct (match prev_mdtm m with Some _ => _ | None => _ end) as [fs' ev3].
  eauto.
Qed.

(** A run of checks that all find the stored token. *)
Lemma checks_unchanged iterations i ks m token :
  prev_mdtm m = Some token ->
  Forall (fun k => (get_mdtm (probe k)).1 = Some token) ks ->
  disk (checks iterations i ks m) = disk m
  /\ prev_mdtm (checks iterations i ks m) = Some token
  /\ exists new, events (checks iterations i ks m) = events m ++ new
       /\ downloads new = [].
Proof.
  intros P F. revert i m P.
  induction F as [|k ks Hk F IH]; intros i m P; cbn [checks].
  - split_and!; [done..|]. exists []. by rewrite app_nil_r.
  - destruct (get_mdtm (probe k)) as [found ev] eqn:E. cbn in Hk. subst found.
    set (label := iteration_label iterations i).
    destruct (one_check_unchanged_quiet label k m token ev E P) as [D Q].
    destruct (IH (S i) (_one_check label k m)) as (D' & P' & new & E' & Q').
    { by eapply one_check_stores_token. }
    split_and!; [by rewrite D', D | done |].
    destruct (one_check_events label k m) as [tick_events EV].
    rewrite (during_app m _ _ EV) in Q.
    exists (tick_events ++ new). split.
    + by rewrite E', EV, <- app_assoc.
    + by rewrite downloads_app, Q, Q'.
Qed.

End PollLoopMore.

Section PollLoopExtras.
Import Ftp Monitor Sample SampleRun.

(** X1. A check whose probe yields no token (an exception in the session,
    a failing [quit], a reply that is no [213] line) keeps the last seen
    token, every file other than the log [ftp_monitor.log], to which its
    lines are appended, and the readings table; it calls [download_to]
    not once, and ends with the line 'Could not get MDTM'. *)
Theorem failed_probe_changes_nothing
    (label : string) (k : tick) (m : monitor) :
  (get_mdtm (probe k)).1 = None ->
  let after := _one_check label k m in
  prev_mdtm after = prev_mdtm m
  /\ (forall p, p <> LOG_FILE -> files (disk after) !! p = files (disk m) !! p)
  /\ pv_readings (disk after) = pv_readings (disk m)
  /\ downloads (during m after) = []
  /\ last (events after)
     = Some (Log "Could not get MDTM (server may not support it or connection failed)").
Proof.
  intros E after. subst after.
  destruct (get_mdtm (probe k)) as [found ev] eqn:G. cbn in E. subst found.
  destruct (one_check_probe_none label k m ev G) as (A & B & C).
  split_and!; [done|by rewrite B|by rewrite B|done|].
  unfold _one_check. rewrite G. cbn [events].
  by rewrite !app_assoc, last_snoc.
Qed.

(** X1, tried: the probe times out after the token [20240101000000] was
    seen; [pv.csv] keeps its content. *)
Lemma failed_probe_changes_nothing_witness :
  let after := _one_check "Iteration 2/6" probe_down seen_first in
  prev_mdtm after = Some "20240101000000"
  /\ files (disk after) !! "pv.csv" = Some (content "old")
  /\ downloads (during seen_first after) = []
  /\ last (events after)
     = Some (Log "Could not get MDTM (server may not support it or connection failed)").
Proof.
  destruct (failed_probe_changes_nothing "Iteration 2/6" probe_down seen_first eq_refl)
    as (A & B & _ & C & D).
  split_and!; [exact A | | exact C | exact D].
  refine (eq_trans (B "pv.csv" _) eq_refl). discriminate.
Defined.

(** X2. The first check that gets a token downloads whatever the token
    is: [pv.csv] first and, if that worked, the snapshot.  The token is
    stored in both cases, so a first download that failed is not made up
    for while the token stays the same. *)
Theorem first_check_always_downloads
    (label : string) (k : tick) (m : monitor) (token : string) (ev : list event) :
  get_mdtm (probe k) = (Some token, ev) ->
  prev_mdtm m = None ->
  let after := _one_check label k m in
  let first := download_to LOCAL (first_retrieval k) (files (disk m)) in
  prev_mdtm after = Some token
  /\ (first.1.1 = true -> downloads (during m after) = [LOCAL; snap_name token])
  /\ (first.1.1 = false ->
        downloads (during m after) = [LOCAL]
        /\ files (disk after) = first.1.2
        /\ last (events after) = Some (Log "Initial download failed")).
Proof.
  intros E P after first. subst after first.
  pose proof (get_mdtm_downloads (probe k)) as Q. rewrite E in Q. cbn [snd] in Q.
  split; [by eapply one_check_stores_token|].
  pose proof (download_to_downloads LOCAL (first_retrieval k) (files (disk m))) as D1.
  unfold _one_check. rewrite E, P.
  destruct (download_to LOCAL (first_retrieval k) (files (disk m)))
    as [[ok fs1] d1]. cbn [fst snd] in *.
  split; intros ->.
  - pose proof (download_to_downloads (snap_name token) (second_retrieval k) fs1) as D2.
    destruct (download_to (snap_name token) (second_retrieval k) fs1)
      as [[ok2 fs2] d2]. cbn [fst snd] in *.
    erewrite during_app by reflexivity.
    by rewrite !downloads_app, Q, D1, D2.
  - split_and!.
    + erewrite during_app by reflexivity. by rewrite !downloads_app, Q, D1.
    + done.
    + cbn [events]. by rewrite !app_assoc, last_snoc.
Qed.

(** X2, tried: the server is out of reach at the first check and serves
    the same token at the second; the second check downloads nothing. *)
Lemma first_check_always_downloads_witness :
  let after := _one_check "Iteration 1/6" changed_but_unreachable not_started in
  prev_mdtm after = Some "20240102000000"
  /\ downloads (during not_started after) = ["pv.csv"]
  /\ downloads (during after (_one_check "Iteration 2/6" changed_and_served after)) = [].
Proof.
  pose proof (first_check_always_downloads "Iteration 1/6" changed_but_unreachable
                not_started "20240102000000" [] eq_refl eq_refl) as H.
  cbv zeta in H. destruct H as (A & _ & B). destruct (B eq_refl) as (C & _).
  cbv zeta. split_and!; [exact A | exact C | reflexivity].
Defined.

(** X3. A check that finds a new token and fetches the snapshot then
    refreshes [pv.csv]; whatever becomes of that refresh, the snapshot
    holds the complete remote content, the last line of the log is
    'Saved snapshot', and the token is stored. *)
Theorem changed_token_saves_snapshot
    (label : string) (k : tick) (m : monitor)
    (prev token : string) (ev : list event) :
  get_mdtm (probe k) = (Some token, ev) ->
  prev_mdtm m = Some prev ->
  token <> prev ->
  (download_to (snap_name token) (first_retrieval k) (files (disk m))).1.1 = true ->
  let after := _one_check label k m in
  downloads (during m after) = [snap_name token; LOCAL]
  /\ files (disk after) !! snap_name token = Some (remote_content (first_retrieval k))
  /\ last (events after) = Some (Log ("Saved snapshot: " +:+ snap_name token))
  /\ prev_mdtm after = Some token.
Proof.
  intros E P N F after. subst after.
  pose proof (get_mdtm_downloads (probe k)) as Q. rewrite E in Q. cbn [snd] in Q.
  pose proof (download_to_downloads (snap_name token) (first_retrieval k)
                (files (disk m))) as D1.
  assert ((download_to (snap_name token) (first_retrieval k) (files (disk m))).1.2
            !! snap_name token = Some (remote_content (first_retrieval k))) as C.
  { destruct (download_to_retrieve (snap_name token) (first_retrieval k)
                (files (disk m))) as [-> Hok].
    apply Hok in F as [u Hu].
    destruct (reaches_open (first_retrieval k)) eqn:R.
    - rewrite (retrieve_after_open _ _ _ R) in *. cbn [fst snd] in *.
      rewrite lookup_insert_eq. f_equal. apply received_complete.
      by destruct (retr_abort (first_retrieval k)) as [[n e]|].
    - destruct (retrieve_before_open (snap_name token) (first_retrieval k)
                  (files (disk m)) R) as [e He].
      rewrite He in Hu. discriminate. }
  split_and!; [| | |by eapply one_check_stores_token].
  all: unfold _one_check; rewrite E, P, bool_decide_true by done.
  all: destruct (download_to (snap_name token) (first_retrieval k) (files (disk m)))
         as [[ok fs1] d1]; cbn [fst snd] in *; subst ok.
  all: pose proof (download_to_downloads LOCAL (second_retrieval k) fs1) as D2.
  all: pose proof (download_to_files LOCAL (second_retrieval k) fs1
                     (snap_name token)) as [_ O].
  all: destruct (download_to LOCAL (second_retrieval k) fs1) as [[ok2 fs2] d2];
         cbn [fst snd] in *.
  - erewrite during_app by reflexivity.
    by rewrite !downloads_app, Q, D1, D2.
  - cbn. rewrite O; [done|]. apply snap_name_not_local.
  - cbn [events]. by rewrite !app_assoc, last_snoc.
Qed.

(** X3, tried: the snapshot is fetched, the refresh of [pv.csv] fails. *)
Lemma changed_token_saves_snapshot_witness :
  let after := _one_check "Iteration 2/6" served_then_unreachable seen_first in
  downloads (during seen_first after)
    = ["pv_csv_snapshots/pv_20240102000000.csv"; "pv.csv"]
  /\ files (disk after) !! "pv_csv_snapshots/pv_20240102000000.csv"
     = Some (content "new!")
  /\ last (events after)
     = Some (Log "Saved snapshot: pv_csv_snapshots/pv_20240102000000.csv")
  /\ prev_mdtm after = Some "20240102000000".
Proof.
  refine (changed_token_saves_snapshot "Iteration 2/6" served_then_unreachable
            seen_first "20240101000000" "20240102000000" [] eq_refl eq_refl _ eq_refl).
  discriminate.
Defined.

(** X4. A run of checks whose probes all answer the token that the loop
    holds downloads nothing at all, however long it is, and leaves every
    file as it was, the log [ftp_monitor.log] apart, to which each check
    appends its lines; the readings table is as it was. *)
Theorem unchanged_server_run_is_quiet
    (iterations : Z) (i : nat) (ks : list tick) (m : monitor) (token : string) :
  prev_mdtm m = Some token ->
  Forall (fun k => (get_mdtm (probe k)).1 = Some token) ks ->
  let after := checks iterations i ks m in
  (forall p, p <> LOG_FILE -> files (disk after) !! p = files (disk m) !! p)
  /\ pv_readings (disk after) = pv_readings (disk m)
  /\ prev_mdtm after = Some token
  /\ downloads (during m after) = [].
Proof.
  intros P F after. subst after.
  destruct (checks_unchanged iterations i ks m token P F) as (D & T & new & E & Q).
  split_and!; [by rewrite D|by rewrite D|done|]. by rewrite (during_app _ _ _ E).
Qed.

(** X4, tried on three checks: [pv.csv] keeps its content. *)
Lemma unchanged_server_run_is_quiet_witness :
  let after := checks 6 1 [unchanged; unchanged; unchanged] seen_first in
  files (disk after) !! "pv.csv" = Some (content "old")
  /\ prev_mdtm after = Some "20240101000000"
  /\ downloads (during seen_first after) = [].
Proof.
  assert (Forall (fun k => (get_mdtm (probe k)).1 = Some "20240101000000")
            [unchanged; unchanged; unchanged]) as F by repeat constructor.
  destruct (unchanged_server_run_is_quiet 6 1 [unchanged; unchanged; unchanged]
              seen_first "20240101000000" eq_refl F) as (A & _ & B & C).
  split_and!; [| exact B | exact C].
  refine (eq_trans (A "pv.csv" _) eq_refl). discriminate.
Defined.

(** X5. A run of checks writes [pv.csv], snapshots and its log
    [ftp_monitor.log], and nothing else: every other path keeps its
    content, no file disappears, and the readings table is never
    touched. *)
Theorem run_touches_only_its_files
    (iterations : Z) (i : nat) (ks : list tick) (m : monitor) (p : string) :
  let after := checks iterations i ks m in
  (is_Some (files (disk m) !! p) -> is_Some (files (disk after) !! p))
  /\ (p <> LOCAL -> p <> LOG_FILE -> (forall token, p <> snap_name token) ->
      files (disk after) !! p = files (disk m) !! p)
  /\ pv_readings (disk after) = pv_readings (disk m).
Proof.
  cbv zeta. revert i m. induction ks as [|k ks IH]; intros i m; cbn [checks].
  - done.
  - destruct (IH (S i) (_one_check (iteration_label iterations i) k m))
      as (A & B & C).
    destruct (one_check_files (iteration_label iterations i) k m p)
      as (A' & B' & C').
    split_and!.
    + auto.
    + intros N1 N2 N3. rewrite B, B'; auto.
    + by rewrite C, C'.
Qed.

(** X5, tried: a check that fetches a snapshot and refreshes [pv.csv]
    leaves the file [notes.txt] of the user as it was, and [pv.csv] is
    still there. *)
Lemma run_touches_only_its_files_witness :
  let after := checks 6 1 [changed_and_served] with_notes in
  files (disk after) !! "notes.txt" = Some (content "keep")
  /\ files (disk after) !! "pv.csv" = Some (content "new!")
  /\ is_Some (files (disk after) !! "pv.csv").
Proof.
  assert (forall token, "notes.txt" <> snap_name token) as N.
  { intros token. unfold snap_name, SNAP_DIR. cbv [String.append]. discriminate. }
  assert ("notes.txt" <> LOCAL) as NL by discriminate.
  assert ("notes.txt" <> LOG_FILE) as NG by discriminate.
  split_and!.
  - exact (eq_trans
             (proj1 (proj2 (run_touches_only_its_files 6 1 [changed_and_served]
                              with_notes "notes.txt")) NL NG N)
             eq_refl).
  - reflexivity.
  - refine (proj1 (run_touches_only_its_files 6 1 [changed_and_served] with_notes
                     "pv.csv") _).
    eexists. reflexivity.
Defined.

End PollLoopExtras.

(** ** Strings: words and decimal numerals *)

Section PyFacts.

Lemma append_cons a s t : String a s +:+ t = String a (s +:+ t).
Proof. done. Qed.

Lemma append_empty_r s : s +:+ "" = s.
Proof. induction s as [|a s IH]; [done|]. by rewrite append_cons, IH. Qed.

Lemma rev_app_rev_app s w t :
  String.rev_app (String.rev_app s w) t = String.rev_app w (s +:+ t).
Proof.
  revert w t. induction s as [|a s IH]; intros w t; [done|].
  cbn [String.rev_app]. by rewrite IH, append_cons.
Qed.

Lemma rev_rev s : String.rev (String.rev s) = s.
Proof.
  unfold String.rev. rewrite rev_app_rev_app. cbn [String.rev_app].
  apply append_empty_r.
Qed.

Lemma all_chars_rev_app p s w :
  Py.all_chars p (String.rev_app s w) = Py.all_chars p s && Py.all_chars p w.
Proof.
  revert w. induction s as [|a s IH]; intros w; [done|].
  cbn. rewrite IH. cbn. by destruct (p a), (Py.all_chars p s).
Qed.

Lemma all_chars_rev p s : Py.all_chars p (String.rev s) = Py.all_chars p s.
Proof. unfold String.rev. rewrite all_chars_rev_app. cbn. by rewrite andb_true_r. Qed.

Lemma all_chars_impl (p q : ascii -> bool) s :
  (forall a, p a = true -> q a = true) ->
  Py.all_chars p s = true -> Py.all_chars q s = true.
Proof.
  intros I. induction s as [|a s IH]; [done|]. cbn.
  intros [A B]%andb_true_iff. by rewrite (I a A), IH.
Qed.

(** A string without white space is one word. *)
Lemma split_ws_aux_word s w :
  Py.all_chars (fun a => negb (Py.is_space a)) s = true ->
  Py.split_ws_aux (Some w) s = [String.rev (String.rev_app s w)].
Proof.
  revert w. induction s as [|a s IH]; intros w H; [done|].
  cbn in H. apply andb_true_iff in H as [A B]. apply negb_true_iff in A.
  cbn [Py.split_ws_aux]. rewrite A. cbn [default]. by rewrite IH.
Qed.

Lemma split_ws_word s :
  Py.is_word s = true -> Py.split_ws s = [s].
Proof.
  unfold Py.is_word, Py.split_ws. intros [N H]%andb_true_iff.
  destruct s as [|a s]; [done|].
  cbn in H. apply andb_true_iff in H as [A B]. apply negb_true_iff in A.
  cbn [Py.split_ws_aux]. rewrite A. cbn [default].
  rewrite split_ws_aux_word by done.
  change (String.rev_app s (String a "")) with (String.rev (String a s)).
  by rewrite rev_rev.
Qed.

(** [split] cuts at the first separator. *)
Lemma split_on_piece sep a rest :
  Py.all_chars (fun c => negb (Ascii.eqb c sep)) a = true ->
  Py.split_on sep (a +:+ String sep rest) = a :: Py.split_on sep rest.
Proof.
  induction a as [|c a IH]; intros H.
  - change ("" +:+ String sep rest) with (String sep rest).
    cbn [Py.split_on]. by rewrite Ascii.eqb_refl.
  - cbn in H. apply andb_true_iff in H as [A B]. apply negb_true_iff in A.
    rewrite append_cons. cbn [Py.split_on]. rewrite A, IH by done. done.
Qed.

End PyFacts.

Section StringExtras.
Import Ftp Monitor Frame App.

(** X6. The probe returns the token that the server sent: for every
    [token] of ASCII characters that is a word (not empty, without white
    space), the reply line [213 token] makes [get_mdtm] return [token],
    with no line of log. *)
Theorem get_mdtm_returns_the_token (token : string) :
  Py.is_ascii token = true ->
  Py.is_word token = true ->
  get_mdtm (MdtmReply ("213 " +:+ token) None) = (Some token, []).
Proof.
  intros _ W. unfold get_mdtm.
  change ("213 " +:+ token)
    with (String "2" (String "1" (String "3" (String " " token)))).
  assert (Py.startswith (String "2" (String "1" (String "3" (String " " token)))) "213 "
          = true) as -> by (by destruct token).
  change (Py.split_ws (String "2" (String "1" (String "3" (String " " token)))))
    with ("213" :: Py.split_ws token).
  by rewrite (split_ws_word token W).
Qed.

Lemma get_mdtm_returns_the_token_witness :
  get_mdtm (MdtmReply "213 20240102000000" None) = (Some "20240102000000", []).
Proof. exact (get_mdtm_returns_the_token "20240102000000" eq_refl eq_refl). Defined.

Lemma digit_of_char d :
  (d < 10)%N -> Py.digit_of (pretty_N_char d) = Some (Z.of_N d).
Proof.
  intros H.
  assert (d = 0 ∨ d = 1 ∨ d = 2 ∨ d = 3 ∨ d = 4 ∨ d = 5 ∨ d = 6 ∨ d = 7
          ∨ d = 8 ∨ d = 9)%N as C by lia.
  destruct_or!; subst; reflexivity.
Qed.

Lemma pretty_N_go_value x :
  exists k : Z, 0 <= k /\ forall s acc,
    Py.digits_from acc (pretty_N_go x s)
    = Py.digits_from (acc * 10 ^ k + Z.of_N x) s.
Proof.
  induction (N.lt_wf_0 x) as [x _ IH].
  destruct (decide (x = 0)%N) as [->|N].
  - exists 0. split; [lia|]. intros s acc. rewrite pretty_N_go_0. f_equal. lia.
  - destruct (IH (x `div` 10)%N) as (k & Hk & E).
    { apply N.div_lt; lia. }
    exists (k + 1). split; [lia|]. intros s acc.
    rewrite pretty_N_go_step by lia. rewrite E. cbn [Py.digits_from].
    rewrite digit_of_char by (apply N.mod_lt; lia). f_equal.
    rewrite Z.pow_add_r by lia.
    pose proof (N.div_mod x 10 ltac:(lia)) as D.
    assert (Z.of_N x = 10 * Z.of_N (x `div` 10) + Z.of_N (x `mod` 10)) by lia.
    lia.
Qed.

Lemma is_digit_char d : (d < 10)%N -> Py.is_digit (pretty_N_char d) = true.
Proof.
  intros H.
  assert (d = 0 ∨ d = 1 ∨ d = 2 ∨ d = 3 ∨ d = 4 ∨ d = 5 ∨ d = 6 ∨ d = 7
          ∨ d = 8 ∨ d = 9)%N as C by lia.
  destruct_or!; subst; reflexivity.
Qed.

Lemma pretty_N_go_digits x s :
  Py.all_chars Py.is_digit s = true ->
  Py.all_chars Py.is_digit (pretty_N_go x s) = true.
Proof.
  revert s. induction (N.lt_wf_0 x) as [x _ IH]; intros s H.
  destruct (decide (x = 0)%N) as [->|N]; [by rewrite pretty_N_go_0|].
  rewrite pretty_N_go_step by lia. apply IH; [apply N.div_lt; lia|].
  cbn. rewrite H, is_digit_char; [done|]. apply N.mod_lt; lia.
Qed.

Lemma pretty_N_go_not_empty x s : s <> "" -> pretty_N_go x s <> "".
Proof.
  revert s. induction (N.lt_wf_0 x) as [x _ IH]; intros s H.
  destruct (decide (x = 0)%N) as [->|N]; [by rewrite pretty_N_go_0|].
  rewrite pretty_N_go_step by lia. apply IH; [apply N.div_lt; lia|done].
Qed.

(** The decimal numeral of a natural number: digits, at least one, and
    their value is the number. *)
Lemma pretty_nat_numeral (n : nat) :
  Py.all_chars Py.is_digit (pretty n) = true
  /\ pretty n <> ""
  /\ Py.digits_from 0 (pretty n) = Some (Z.of_nat n).
Proof.
  unfold pretty, pretty_nat, pretty, pretty_N.
  destruct (decide (N.of_nat n = 0)%N) as [E|N].
  - assert (n = 0%nat) as -> by lia. done.
  - split_and!.
    + by apply pretty_N_go_digits.
    + rewrite pretty_N_go_step by lia. by apply pretty_N_go_not_empty.
    + destruct (pretty_N_go_value (N.of_nat n)) as (k & _ & E).
      rewrite E. cbn. f_equal. lia.
Qed.

Lemma digit_no_underscore a :
  Py.is_digit a = true -> negb (Ascii.eqb a "_") = true.
Proof. destruct a as [[] [] [] [] [] [] [] []]; by vm_compute. Qed.

Lemma digit_no_int_space a :
  Py.is_digit a = true -> negb (Py.is_int_space a) = true.
Proof. destruct a as [[] [] [] [] [] [] [] []]; by vm_compute. Qed.

(** A string without the white space of [int] is its own [strip_int]. *)
Lemma lstrip_int_word s :
  Py.all_chars (fun a => negb (Py.is_int_space a)) s = true ->
  Py.lstrip_int s = s.
Proof.
  destruct s as [|a s]; [done|]. cbn.
  intros [A B]%andb_true_iff. apply negb_true_iff in A. by rewrite A.
Qed.

Lemma strip_int_word s :
  Py.all_chars (fun a => negb (Py.is_int_space a)) s = true ->
  Py.strip_int s = s.
Proof.
  intros H. unfold Py.strip_int. rewrite (lstrip_int_word s H).
  rewrite lstrip_int_word by (by rewrite all_chars_rev). apply rev_rev.
Qed.

(** [int] of a run of digits, at most [max_str_digits] of them, is their
    value. *)
Lemma int_of_numeral s :
  Py.all_chars Py.is_digit s = true -> s <> "" ->
  (String.length s <= Py.max_str_digits)%nat ->
  Py.int s = Py.digits_from 0 s.
Proof.
  intros D N L. unfold Py.int.
  rewrite strip_int_word by (eapply all_chars_impl; [apply digit_no_int_space|done]).
  assert (Py.unsigned_int s = Py.digits_from 0 s) as U.
  { unfold Py.unsigned_int. destruct s as [|a s]; [done|].
    by rewrite (proj2 (Nat.ltb_ge _ _) L). }
  destruct s as [|a s]; [done|]. cbn in D. apply andb_true_iff in D as [A _].
  destruct a as [[] [] [] [] [] [] [] []]; try (by vm_compute in A); exact U.
Qed.

(** The numeral of [x] has as many digits as the powers of ten up to
    [x]. *)
Lemma pretty_N_go_length x s :
  (0 < x)%N ->
  exists k : nat,
    String.length (pretty_N_go x s) = (String.length s + S k)%nat
    /\ 10 ^ Z.of_nat k <= Z.of_N x.
Proof.
  revert s. induction (N.lt_wf_0 x) as [x _ IH]; intros s P.
  rewrite pretty_N_go_step by lia.
  destruct (decide (x `div` 10 = 0)%N) as [E|NZ].
  - rewrite E, pretty_N_go_0. exists 0%nat. split; [cbn; lia|].
    change (10 ^ Z.of_nat 0) with 1. lia.
  - assert (x `div` 10 < x)%N as Lt by (apply N.div_lt; lia).
    assert (0 < x `div` 10)%N as Pos by (by apply N.neq_0_lt_0).
    destruct (IH _ Lt (String (pretty_N_char (x `mod` 10)) s) Pos)
      as (k & L & B).
    exists (S k). split; [rewrite L; cbn; lia|].
    rewrite Nat2Z.inj_succ, Z.pow_succ_r by lia.
    pose proof (N.div_mod x 10 ltac:(lia)) as D.
    assert (Z.of_N x = 10 * Z.of_N (x `div` 10) + Z.of_N (x `mod` 10)) as Q by lia.
    clear - B Q. revert B Q.
    generalize (Z.of_N (x `div` 10)) (N2Z.is_nonneg (x `mod` 10)).
    generalize (Z.of_N (x `mod` 10)) (10 ^ Z.of_nat k). intros; lia.
Qed.

Lemma pretty_nat_length (n : nat) :
  Z.of_nat n < 10 ^ Z.of_nat Py.max_str_digits ->
  (String.length (pretty n) <= Py.max_str_digits)%nat.
Proof.
  intros B. unfold pretty, pretty_nat, pretty, pretty_N.
  destruct (decide (N.of_nat n = 0)%N) as [E|N].
  - cbn. unfold Py.max_str_digits. lia.
  - destruct (pretty_N_go_length (N.of_nat n) "" ltac:(lia)) as (k & L & P).
    rewrite L. cbn [String.length]. apply Nat.nlt_ge. intros G.
    assert (10 ^ Z.of_nat Py.max_str_digits <= 10 ^ Z.of_nat k) as M
      by (apply Z.pow_le_mono_r; lia).
    lia.
Qed.

Lemma prefix_empty s : String.prefix "" s = true.
Proof. by destruct s. Qed.

Lemma list_ascii_app a b :
  String.list_ascii_of_string (a +:+ b)
  = String.list_ascii_of_string a ++ String.list_ascii_of_string b.
Proof. induction a as [|c a IH]; [done|]. rewrite append_cons. cbn. by rewrite IH. Qed.

Lemma endswith_append a b : Py.endswith (a +:+ b) b = true.
Proof.
  unfold Py.endswith. cbv zeta. rewrite list_ascii_app, length_app.
  apply andb_true_iff. split; apply bool_decide_eq_true; [|lia].
  replace (length (String.list_ascii_of_string a)
           + length (String.list_ascii_of_string b)
           - length (String.list_ascii_of_string b))%nat
    with (length (String.list_ascii_of_string a)) by lia.
  apply drop_app_length.
Qed.

(** X7. A point column named after a natural number is recognised and
    gets that number as index: for every [n] below ten to the power
    [max_str_digits], the most digits that [int] converts, the column
    [energy_ptot_<n>_kWh] is a point column and [_ptot_index] is [n]. *)
Theorem point_column_index_round_trip (n : nat) :
  Z.of_nat n < 10 ^ Z.of_nat Py.max_str_digits ->
  let col := "energy_ptot_" +:+ pretty n +:+ "_kWh" in
  is_prod_col col = true
  /\ embedded_index col = Some (Z.of_nat n)
  /\ _ptot_index col = Z.of_nat n.
Proof.
  intros B. cbv zeta. destruct (pretty_nat_numeral n) as (D & N & V).
  pose proof (pretty_nat_length n B) as L.
  assert (embedded_index ("energy_ptot_" +:+ pretty n +:+ "_kWh")
          = Some (Z.of_nat n)) as E.
  { unfold embedded_index.
    change ("energy_ptot_" +:+ pretty n +:+ "_kWh")
      with ("energy" +:+ String "_" ("ptot" +:+ String "_"
              (pretty n +:+ String "_" "kWh"))).
    rewrite !split_on_piece; [| |done..].
    - cbn. by rewrite int_of_numeral.
    - eapply all_chars_impl; [apply digit_no_underscore|done]. }
  split_and!.
  - unfold is_prod_col. apply andb_true_iff. split.
    + unfold Py.startswith.
      change ("energy_ptot_" +:+ pretty n +:+ "_kWh")
        with (String "e" (String "n" (String "e" (String "r" (String "g"
              (String "y" (String "_" (String "p" (String "t" (String "o"
              (String "t" (String "_" (pretty n +:+ "_kWh"))))))))))))).
      cbn. apply prefix_empty.
    + change ("energy_ptot_" +:+ pretty n +:+ "_kWh")
        with (("energy_ptot_" +:+ pretty n) +:+ "_kWh").
      apply endswith_append.
  - done.
  - by rewrite _ptot_index_embedded, E.
Qed.

(** X7, tried: the column of the point 17. *)
Lemma point_column_index_round_trip_witness :
  is_prod_col "energy_ptot_17_kWh" = true
  /\ embedded_index "energy_ptot_17_kWh" = Some 17
  /\ _ptot_index "energy_ptot_17_kWh" = 17.
Proof.
  refine (point_column_index_round_trip 17 _). by vm_compute.
Defined.

End StringExtras.

(** ** The readings table: writing and querying *)

Section Store.
Import Ftp Frame App.

Lemma next_id_above table :
  Forall (fun old => row_id old < next_id table) table.
Proof.
  unfold next_id. induction table as [|r table IH]; [constructor|].
  cbn [foldr]. constructor; [lia|].
  eapply Forall_impl; [exact IH|]. cbn. intros; lia.
Qed.

Lemma in_window_spec hours now r :
  in_window hours now r = true
  <-> answerable hours now /\ now - 3600 * hours <= row_timestamp r.
Proof.
  unfold in_window, answerable. rewrite !andb_true_iff, !Z.leb_le. tauto.
Qed.

Lemma elem_of_window hours now table r :
  r ∈ window hours now table
  <-> r ∈ table /\ answerable hours now /\ now - 3600 * hours <= row_timestamp r.
Proof.
  unfold window. rewrite list_elem_of_filter, in_window_spec. tauto.
Qed.

Lemma window_not_answerable hours now table :
  ~ answerable hours now -> window hours now table = [].
Proof.
  intros N. unfold window. induction table as [|r table IH]; [done|].
  rewrite filter_cons_False; [done|]. rewrite in_window_spec. tauto.
Qed.

Lemma window_snoc hours now table r :
  answerable hours now ->
  now - 3600 * hours <= row_timestamp r ->
  window hours now (table ++ [r]) = window hours now table ++ [r].
Proof.
  intros A H. unfold window. rewrite filter_app. f_equal.
  rewrite filter_cons_True; [done|]. by apply in_window_spec.
Qed.

Lemma strongly_sorted_weaken {A} (R R' : A -> A -> Prop) l :
  (forall a b, R a b -> R' a b) -> StronglySorted R l -> StronglySorted R' l.
Proof.
  intros I. induction 1 as [|x l S IH F]; constructor; [done|].
  eapply Forall_impl; [exact F|]. auto.
Qed.

(** The element with the least key, arrived last, comes first. *)
Lemma sorted_snoc_least {A} (key : A -> Z) l x :
  Forall (fun y => key x < key y) l ->
  sorted key (l ++ [x]) = x :: sorted key l.
Proof.
  induction 1 as [|y l H F IH]; [done|].
  change (sorted key ((y :: l) ++ [x]))
    with (insert_by key y (sorted key (l ++ [x]))).
  rewrite IH. cbn [insert_by].
  destruct (key y <=? key x) eqn:C; [apply Z.leb_le in C; lia|done].
Qed.

Lemma production_values_length row cols vs :
  production_values row cols = Ok vs -> (length vs <= length cols)%nat.
Proof.
  intros H. rewrite (production_values_order row cols vs H).
  clear H. induction cols as [|c cols IH]; [done|].
  cbn. destruct (valid_value row c); cbn; lia.
Qed.

End Store.

Section StoreExtras.
Import Ftp Frame App Sample SampleApp SampleStore.

(** Closed facts about dates, by evaluation. *)
Ltac dates :=
  unfold dated, datable, answerable, year_zero, first_date, last_date;
  cbn; repeat constructor; cbn; unfold noon; lia.

(** X8. When the download fails, [fetch_pv_data] stops the page: no
    dictionary is returned, nothing is parsed or appended, and the three
    error lines are shown, whatever a file [pv.csv] left by an earlier
    run would parse to. *)
Theorem failed_download_stops_the_page
    (t : transfer) (csv : read_csv) (fault : option string) (now : Z)
    (s : session) (e : string) :
  (_download_ftp_csv data_file t (files (env s))).1 = Raised e ->
  let result := fetch_pv_data t csv fault now s in
  result.1 = Stopped
  /\ pv_readings (env result.2) = pv_readings (env s)
  /\ screen result.2 = screen s ++ [LiveUnavailable; ConnectHint; ErrorText e].
Proof.
  intros R result. subst result. unfold fetch_pv_data.
  destruct (_download_ftp_csv data_file t (files (env s))) as [[u|e'] fs];
    cbn in R; [done|]. by injection R as ->.
Qed.

(** X8, tried: the server is out of reach while the table of the
    scenario is at hand. *)
Lemma failed_download_stops_the_page_witness :
  let result := fetch_pv_data unreachable (ReadFrame two_points) None 0 fresh in
  result.1 = Stopped
  /\ pv_readings (env result.2) = pv_readings (env fresh)
  /\ screen result.2
     = screen fresh ++ [LiveUnavailable; ConnectHint;
                        ErrorText "[Errno 111] Connection refused"].
Proof.
  exact (failed_download_stops_the_page unreachable (ReadFrame two_points) None 0
           fresh "[Errno 111] Connection refused" eq_refl).
Defined.

(** X9. [fetch_pv_data] only ever appends to the readings table: the
    rows that were there stay as they are and in their order, at most one
    row is added, and that row has the source ['live'], the time of the
    call and an identity above all earlier ones, so identities that were
    distinct stay distinct. *)
Theorem fetch_only_appends
    (t : transfer) (csv : read_csv) (fault : option string) (now : Z) (s : session) :
  let before := pv_readings (env s) in
  let after := pv_readings (env (fetch_pv_data t csv fault now s).2) in
  (after = before
   \/ exists r, after = before ++ [r]
        /\ row_data_source r = "live"
        /\ row_timestamp r = now
        /\ Forall (fun old => row_id old < row_id r) before)
  /\ (NoDup (row_id <$> before) -> NoDup (row_id <$> after)).
Proof.
  cbv zeta.
  assert (pv_readings (env (fetch_pv_data t csv fault now s).2) = pv_readings (env s)
          \/ exists r, pv_readings (env (fetch_pv_data t csv fault now s).2)
                       = pv_readings (env s) ++ [r]
               /\ row_data_source r = "live"
               /\ row_timestamp r = now
               /\ Forall (fun old => row_id old < row_id r) (pv_readings (env s)))
    as H.
  { unfold fetch_pv_data.
    destruct (_download_ftp_csv data_file t (files (env s))) as [[u|e] fs];
      [|by left].
    destruct (parsed csv "live") as [r|e]; [|by left].
    destruct fault as [e|]; [by left|]. right. cbn.
    eexists. split; [reflexivity|]. cbn. split_and!; [done..|].
    apply next_id_above. }
  split; [exact H|].
  intros N. destruct H as [->|(r & -> & _ & _ & F)]; [done|].
  rewrite fmap_app. cbn. apply NoDup_app. split_and!; [done| |apply NoDup_singleton].
  intros i Hi ->%list_elem_of_singleton.
  apply list_elem_of_fmap in Hi as (old & E & Hold).
  rewrite Forall_forall in F. specialize (F old Hold). lia.
Qed.

(** X9, tried: a fourth row is written after the rows 1, 2 and 3. *)
Lemma fetch_only_appends_witness :
  NoDup (row_id <$> pv_readings
           (env (fetch_pv_data complete (ReadFrame two_points) None noon three_rows).2)).
Proof.
  refine (proj2 (fetch_only_appends complete (ReadFrame two_points) None noon
                   three_rows) _).
  cbn. exact (bool_decide_unpack (NoDup [1; 2; 3]) I).
Defined.

(** X10. A row that [log_data] has written into a [dated] table at a
    [datable] time is found again: every query for a number of hours that
    is not negative and gives a date ([answerable]), and whose window
    reaches back to the time of writing, returns the row as the database
    holds it (NaN as [NULL], both zeros as 0.0), and returns it first
    when all other rows are older. *)
Theorem logged_row_is_retrieved
    (data : reading) (source : string) (now : Z) (s : session)
    (hours now' : Z) :
  datable now ->
  dated (pv_readings (env s)) ->
  answerable hours now' ->
  now' - 3600 * hours <= now ->
  let row := row_of data source (next_id (pv_readings (env s))) now in
  let history :=
    (get_historical_data hours None now' (log_data data source None now s).2).1 in
  row ∈ history
  /\ (Forall (fun old => row_timestamp old < now) (pv_readings (env s)) ->
      head history = Some row).
Proof.
  intros _ _ A W row history. subst row history.
  rewrite log_data_insert. cbn [snd get_historical_data env pv_readings fst].
  rewrite window_snoc by done. split.
  - rewrite sorted_perm. apply elem_of_app. right. by left.
  - intros F. rewrite sorted_snoc_least; [done|].
    apply Forall_forall. intros old Hold. cbn.
    apply elem_of_window in Hold as [Hold _].
    rewrite Forall_forall in F. specialize (F old Hold). lia.
Qed.

(** X10, tried: a reading written at noon after three older rows heads
    the history of the last hour. *)
Lemma logged_row_is_retrieved_witness :
  head (get_historical_data 1 None noon
          (log_data fallback "live" None noon three_rows).2).1
  = Some (row_of fallback "live" 4 noon).
Proof.
  refine (proj2 (logged_row_is_retrieved fallback "live" noon three_rows 1 noon
                   _ _ _ _) _).
  - dates.
  - dates.
  - dates.
  - unfold noon. lia.
  - unfold noon. repeat constructor.
Defined.

(** X11. A history query that the database answers, on a [dated] table,
    changes nothing and returns rows of the table, each once, the latest
    first: exactly the rows written in the last [hours] hours when
    [hours] is not negative and the bound is a date ([answerable]), and
    no row otherwise. *)
Theorem history_is_the_window_latest_first (hours now : Z) (s : session) :
  dated (pv_readings (env s)) ->
  let history := (get_historical_data hours None now s).1 in
  (answerable hours now ->
   forall r, r ∈ history
             <-> r ∈ pv_readings (env s) /\ now - 3600 * hours <= row_timestamp r)
  /\ (~ answerable hours now -> history = [])
  /\ history ≡ₚ window hours now (pv_readings (env s))
  /\ StronglySorted (fun a b => row_timestamp b <= row_timestamp a) history
  /\ (get_historical_data hours None now s).2 = s.
Proof.
  intros _. cbv zeta. cbn [get_historical_data fst snd]. split_and!.
  - intros A r. rewrite sorted_perm, elem_of_window. tauto.
  - intros N. by rewrite window_not_answerable.
  - apply sorted_perm.
  - eapply strongly_sorted_weaken; [|apply sorted_sorted].
    unfold by_key. intros a b. lia.
  - done.
Qed.

(** X11, tried on the rows written ten, five and one hour ago: the query
    over six hours returns the last two, the latest first; the query over
    minus six hours returns nothing. *)
Lemma history_is_the_window_latest_first_witness :
  (get_historical_data 6 None noon three_rows).1
    = [row_at 3 (noon - 3600) 3; row_at 2 (noon - 18000) 2]
  /\ StronglySorted (fun a b => row_timestamp b <= row_timestamp a)
       (get_historical_data 6 None noon three_rows).1
  /\ (get_historical_data (-6) None noon three_rows).1 = [].
Proof.
  assert (dated (pv_readings (env three_rows))) as D by dates.
  split; [reflexivity|]. split.
  - exact (proj1 (proj2 (proj2 (proj2
             (history_is_the_window_latest_first 6 noon three_rows D))))).
  - refine (proj1 (proj2 (history_is_the_window_latest_first (-6) noon three_rows D)) _).
    unfold answerable. lia.
Defined.

(** X12. A longer window returns more, a later clock returns less: on a
    [dated] table the rows of a query are among the rows of every query
    over more hours at the same time, and of every query over the same
    hours at an earlier time, as long as the bound of that query is a
    date ([answerable]). *)
Theorem history_grows_with_the_window
    (hours hours' now now' : Z) (s : session) (r : pv_row) :
  dated (pv_readings (env s)) ->
  answerable hours' now' ->
  hours <= hours' -> now' <= now ->
  r ∈ (get_historical_data hours None now s).1 ->
  r ∈ (get_historical_data hours' None now' s).1.
Proof.
  intros _ A H N. cbn [get_historical_data fst].
  rewrite !sorted_perm, !elem_of_window. intros (I & _ & W).
  split_and!; [done..|]. lia.
Qed.

(** X12, tried: the row of one hour ago, found over six hours, is found
    over twenty-four. *)
Lemma history_grows_with_the_window_witness :
  row_at 3 (noon - 3600) 3 ∈ (get_historical_data 24 None noon three_rows).1.
Proof.
  refine (history_grows_with_the_window 6 24 noon noon three_rows _ _ _ _ _ _);
    [dates | dates | lia | lia |].
  vm_compute. left.
Defined.

(** X13. The count of the statistics is the number of rows of the
    history for the same hours and the same clock; so the history page,
    when both queries are answered at one time, shows 'no data' on an
    empty window and otherwise the statistics of the database, never the
    ones recomputed from the table.  These are used when the statistics
    query fails. *)
Theorem history_page_statistics (time_range now : Z) (s : session) :
  let rows := window time_range now (pv_readings (env s)) in
  let history := (get_historical_data time_range None now s).1 in
  reading_count <$> (get_data_statistics time_range None now s).1
    = Some (Z.of_nat (length history))
  /\ show_historical_view time_range None None now now s
     = (match rows with
        | [] => NoHistoryYet
        | _ :: _ => FromDatabase (select_statistics rows)
        end, s)
  /\ (forall e,
        (show_historical_view time_range None (Some e) now now s).1
        = match rows with
          | [] => NoHistoryYet
          | _ :: _ => Recomputed history
          end).
Proof.
  cbv zeta. unfold show_historical_view.
  cbn [get_historical_data get_data_statistics fst snd].
  pose proof (sorted_perm (fun r => - row_timestamp r)
                (window time_range now (pv_readings (env s)))) as P.
  split_and!.
  - cbn. by rewrite P.
  - destruct (window time_range now (pv_readings (env s))) as [|r rows] eqn:W.
    + done.
    + destruct (sorted _ (r :: rows)) as [|r' rows'] eqn:S.
      { apply Permutation_nil_l in P. discriminate. }
      destruct (Z.eqb_spec (reading_count (select_statistics (r :: rows))) 0)
        as [Z|Z]; [|done].
      cbn in Z. lia.
  - intros e.
    destruct (window time_range now (pv_readings (env s))) as [|r rows] eqn:W.
    + done.
    + destruct (sorted _ (r :: rows)) as [|r' rows'] eqn:S; [|done].
      apply Permutation_nil_l in P. discriminate.
Qed.

(** X14. [energy_today] is read from the column of the total energy: in
    every parsed reading of a table that has this column, [energy_today]
    and [total_energy] are the same number; only without the column is
    [energy_today] the sum of the curve, and then [total_energy] and
    [co2_avoided] are 0.0. *)
Theorem energy_today_is_total_energy (csv : read_csv) (src : string) (r : reading) :
  parsed csv src = Ok r ->
  exists df row vs,
    csv = ReadFrame df /\ iloc_last df = Ok row
    /\ values (production_curve r) = PyFloat <$> vs
    /\ match lookup_label row "total_energy_kWh" with
       | Some x =>
           to_float x = Some (total_energy r) /\ energy_today r = total_energy r
       | None =>
           energy_today r = Py.sum vs
           /\ total_energy r = 0%float /\ co2_avoided r = 0%float
       end.
Proof.
  intros H. apply parsed_inv in H.
  destruct H as (df & row & vs & today & total & E & R & V & T & U & _ & ET & TT & C & _ & _ & _ & PC & _).
  exists df, row, vs. split_and!; [done..|by rewrite PC|].
  unfold float_get in T, U.
  destruct (lookup_label row "total_energy_kWh") as [x|].
  - unfold float_of in *. destruct (to_float x) as [v|]; [|done].
    injection T as <-. injection U as <-. by rewrite ET, TT.
  - injection T as <-. injection U as <-. rewrite ET, TT, C. done.
Qed.

(** X14, tried with and without the column. *)
Lemma energy_today_is_total_energy_witness :
  (exists r, parsed (ReadFrame two_points) "live" = Ok r
     /\ energy_today r = 100%float /\ total_energy r = 100%float)
  /\ (exists r, parsed (ReadFrame no_total) "live" = Ok r
        /\ energy_today r = 7%float /\ total_energy r = 0%float).
Proof.
  split.
  - eexists. split; [reflexivity|].
    destruct (energy_today_is_total_energy (ReadFrame two_points) "live" _ eq_refl)
      as (df & row & vs & _). split; reflexivity.
  - eexists. split; [reflexivity|]. split; reflexivity.
Defined.

(** X15. One point cell that holds a text which [float] refuses discards
    the whole reading: the parsing block raises, and [fetch_pv_data]
    returns the all-zero fallback and writes no row, whatever the other
    cells hold. *)
Theorem text_in_point_cell_discards_reading
    (t : transfer) (df : DataFrame) (fault : option string) (now : Z)
    (s : session) (row : series) (c : string) (x : cell) :
  (_download_ftp_csv data_file t (files (env s))).1 = Ok () ->
  iloc_last df = Ok row ->
  c ∈ prod_cols df ->
  lookup_label row c = Some x -> notna x = true -> to_float x = None ->
  let result := fetch_pv_data t (ReadFrame df) fault now s in
  (exists e, parsed (ReadFrame df) "live" = Raised e)
  /\ result.1 = Returned fallback
  /\ pv_readings (env result.2) = pv_readings (env s).
Proof.
  intros D R I L N F result. subst result.
  assert (exists e, parsed (ReadFrame df) "live" = Raised e) as [e E].
  { destruct (production_values_text row (prod_cols df) c x I L N F) as [e E].
    exists e. unfold parsed. cbn [bind]. rewrite R. cbn [bind]. by rewrite E. }
  destruct (fetch_parse_error t (ReadFrame df) fault now s e D E) as (A & B & _).
  eauto.
Qed.

(** X15, tried: the second point holds [abc], the first one 3.0. *)
Lemma text_in_point_cell_discards_reading_witness :
  let result := fetch_pv_data complete (ReadFrame text_point) None noon fresh in
  (exists e, parsed (ReadFrame text_point) "live" = Raised e)
  /\ result.1 = Returned fallback
  /\ pv_readings (env result.2) = pv_readings (env fresh).
Proof.
  refine (text_in_point_cell_discards_reading complete text_point None noon fresh
            _ "energy_ptot_1_kWh" (text "abc") eq_refl eq_refl _ eq_refl eq_refl eq_refl).
  vm_compute. right. left.
Defined.

(** X16. Whatever dictionary [fetch_pv_data] returns, the two lists of
    its curve have the same length: 24 in the fallback, and in a parsed
    reading the positions 0, 1, ... of at most as many values as the
    table has point columns. *)
Theorem curve_lists_have_one_length
    (t : transfer) (csv : read_csv) (fault : option string) (now : Z)
    (s : session) (r : reading) :
  (fetch_pv_data t csv fault now s).1 = Returned r ->
  length (hours (production_curve r)) = length (values (production_curve r))
  /\ (r = fallback /\ length (values (production_curve r)) = 24%nat
      \/ exists df,
           csv = ReadFrame df /\ parsed csv "live" = Ok r
           /\ hours (production_curve r)
              = Position <$> seq 0 (length (values (production_curve r)))
           /\ (length (values (production_curve r))
               <= length (filter (fun c => is_prod_col c = true) (columns df)))%nat).
Proof.
  unfold fetch_pv_data.
  destruct (_download_ftp_csv data_file t (files (env s))) as [[u|e] fs]; [|done].
  destruct (parsed csv "live") as [r'|e] eqn:P.
  - destruct (log_data r' "live" fault now _) as [o s2]. cbn. intros [= <-].
    pose proof P as P'. apply parsed_inv in P'.
    destruct P' as (df & row & vs & today & total & E & R & V & _ & _ & _ & _ & _ & _ & _ & _ & _ & PC & _).
    rewrite PC. cbn. rewrite !length_fmap, length_seq. split; [done|].
    right. exists df. split_and!; [done..|].
    pose proof (production_values_length row _ vs V) as L.
    unfold prod_cols in L. by rewrite sorted_perm in L.
  - cbn. intros [= <-]. split; [done|]. by left.
Qed.

(** X16, tried on the scenario table. *)
Lemma curve_lists_have_one_length_witness :
  exists r,
    (fetch_pv_data complete (ReadFrame two_points) None noon fresh).1 = Returned r
    /\ length (hours (production_curve r)) = length (values (production_curve r)).
Proof.
  eexists. split; [reflexivity|].
  exact (proj1 (curve_lists_have_one_length complete (ReadFrame two_points) None
                  noon fresh _ eq_refl)).
Defined.

(** X17. The first reading and its statistics: after a successful call
    of [fetch_pv_data] on an empty table at a [datable] time, every
    statistics query for a number of hours that is not negative and gives
    a date ([answerable]), and whose window reaches back to the call,
    counts one reading, gives the returned [live_power] as the database
    holds it as maximum and as minimum ([NULL] for NaN, 0.0 for both
    zeros), and 92.0 as average efficiency. *)
Theorem first_reading_statistics
    (t : transfer) (csv : read_csv) (now : Z) (s : session) (r : reading)
    (hours now' : Z) :
  (_download_ftp_csv data_file t (files (env s))).1 = Ok () ->
  parsed csv "live" = Ok r ->
  pv_readings (env s) = [] ->
  datable now ->
  answerable hours now' ->
  now' - 3600 * hours <= now ->
  let result := fetch_pv_data t csv None now s in
  exists d,
    (get_data_statistics hours None now' result.2).1 = Some d
    /\ result.1 = Returned r
    /\ reading_count d = 1
    /\ max_power d = sql_real (live_power r)
    /\ min_power d = sql_real (live_power r)
    /\ avg_efficiency d = Some 92%float.
Proof.
  intros D P T _ An W result. subst result.
  destruct (fetch_parse_ok t csv None now s r D P) as (A & B & _).
  cbn [get_data_statistics fst]. rewrite B, T. cbn [app].
  unfold window. rewrite filter_cons_True by (by apply in_window_spec).
  rewrite filter_nil. eexists. split; [reflexivity|].
  pose proof P as P'. apply parsed_inv in P'.
  destruct P' as (df & row & vs & today & total & _ & _ & _ & _ & _ & _ & _ & _ & _ & _ & _ & E & _).
  cbn. rewrite E. split_and!; try done.
  all: unfold sql_max, sql_min; cbn; by destruct (sql_real (live_power r)).
Qed.

(** X17, tried on the scenario table, asked one hour later. *)
Lemma first_reading_statistics_witness :
  exists d,
    (get_data_statistics 6 None (noon + 3600)
       (fetch_pv_data complete (ReadFrame two_points) None noon fresh).2).1 = Some d
    /\ reading_count d = 1
    /\ max_power d = Some 5%float
    /\ avg_efficiency d = Some 92%float.
Proof.
  destruct (first_reading_statistics complete (ReadFrame two_points) noon fresh
              _ 6 (noon + 3600) eq_refl eq_refl eq_refl ltac:(dates) ltac:(dates)
              ltac:(unfold noon; lia))
    as (d & A & _ & B & C & _ & E).
  exists d. split_and!; [exact A | exact B | exact C | exact E].
Defined.

End StoreExtras.

(** ** [validate.py] *)

Section ValidateFacts.
Import Frame App Validate.

Lemma forallb_false_exists {A} (p : A -> bool) (l : list A) :
  forallb p l = false -> exists x, x ∈ l /\ p x = false.
Proof.
  induction l as [|x l IH]; [done|]. cbn.
  destruct (p x) eqn:P; cbn.
  - intros H. destruct (IH H) as (y & I & E). exists y. split; [by right|done].
  - intros _. exists x. split; [by left|done].
Qed.

Lemma existsb_statuses (results : list CheckResult) (v : string) :
  existsb (fun s => bool_decide (s = v)) ((fun r => Py.upper (status r)) <$> results) = true
  <-> exists r, r ∈ results /\ Py.upper (status r) = v.
Proof.
  rewrite existsb_exists. split.
  - intros (x & I & E). apply list_elem_of_In, list_elem_of_fmap in I as (r & -> & I).
    apply bool_decide_eq_true in E. eauto.
  - intros (r & I & E). exists (Py.upper (status r)). split.
    + apply list_elem_of_In, list_elem_of_fmap. eauto.
    + by apply bool_decide_eq_true_2.
Qed.

Lemma forallb_statuses (results : list CheckResult) (v : string) :
  forallb (fun s => bool_decide (s = v)) ((fun r => Py.upper (status r)) <$> results) = true
  <-> forall r, r ∈ results -> Py.upper (status r) = v.
Proof.
  rewrite forallb_forall. split.
  - intros H r I.
    assert (bool_decide (Py.upper (status r) = v) = true) as E.
    { apply H. apply list_elem_of_In, list_elem_of_fmap. eauto. }
    by apply bool_decide_eq_true in E.
  - intros H x I. apply list_elem_of_In, list_elem_of_fmap in I as (r & -> & I).
    apply bool_decide_eq_true_2. auto.
Qed.

(** The verdict, case by case. *)
Lemma overall_status_cases (results : list CheckResult) :
  ((exists r, r ∈ results /\ Py.upper (status r) = "FAIL")
   /\ _overall_status results = "FAIL")
  \/ ((forall r, r ∈ results -> Py.upper (status r) <> "FAIL")
      /\ (exists r, r ∈ results /\ Py.upper (status r) = "WARN")
      /\ _overall_status results = "WARN")
  \/ ((forall r, r ∈ results -> Py.upper (status r) = "SKIP")
      /\ results <> []
      /\ _overall_status results = "SKIP")
  \/ ((forall r, r ∈ results -> Py.upper (status r) <> "FAIL")
      /\ (forall r, r ∈ results -> Py.upper (status r) <> "WARN")
      /\ (results = [] \/ exists r, r ∈ results /\ Py.upper (status r) <> "SKIP")
      /\ _overall_status results = "PASS").
Proof.
  unfold _overall_status. cbv zeta.
  destruct (existsb _ _) eqn:F.
  { left. by apply existsb_statuses in F. }
  assert (forall r, r ∈ results -> Py.upper (status r) <> "FAIL") as NF.
  { intros r I E. assert (existsb (fun s => bool_decide (s = "FAIL"))
      ((fun r => Py.upper (status r)) <$> results) = true) as C
      by (apply existsb_statuses; eauto). congruence. }
  destruct (existsb (fun s => bool_decide (s = "WARN")) _) eqn:W.
  { right. left. by apply existsb_statuses in W. }
  assert (forall r, r ∈ results -> Py.upper (status r) <> "WARN") as NW.
  { intros r I E. assert (existsb (fun s => bool_decide (s = "WARN"))
      ((fun r => Py.upper (status r)) <$> results) = true) as C
      by (apply existsb_statuses; eauto). congruence. }
  destruct (negb _ && forallb _ _) eqn:K.
  - right. right. left. apply andb_true_iff in K as [N A].
    pose proof (proj1 (forallb_statuses _ _) A) as A'. split_and!; [done| |done].
    intros ->. done.
  - right. right. right. split_and!; [done..| |done].
    apply andb_false_iff in K as [N|A].
    + left. apply negb_false_iff, bool_decide_eq_true in N.
      by apply fmap_nil_inv in N.
    + right. apply forallb_false_exists in A as (x & I & E).
      apply list_elem_of_fmap in I as (r & -> & I).
      apply bool_decide_eq_false in E. eauto.
Qed.

Ltac status_clash :=
  exfalso;
  match goal with
  | H : forall r, r ∈ _ -> Py.upper (status r) <> ?v,
    I : ?r ∈ _, E : Py.upper (status ?r) = ?v |- _ => exact (H r I E)
  | H : forall r, r ∈ _ -> Py.upper (status r) = _,
    I : ?r ∈ _, E : Py.upper (status ?r) = _ |- _ =>
      rewrite (H r I) in E; discriminate
  | H : forall r, r ∈ _ -> Py.upper (status r) = ?v,
    I : ?r ∈ _, E : Py.upper (status ?r) <> ?v |- _ => exact (E (H r I))
  end.

(** X18. The overall status of a report whose checks have statuses of
    ASCII characters: FAIL as soon as one check failed, else WARN as soon
    as one warned, else SKIP when there are checks and all were skipped,
    else PASS (so for no check at all, and for a check with an unknown
    status); upper and lower case count the same, and the order of the
    checks does not matter. *)
Theorem overall_status_characterised (results : list CheckResult) :
  Forall (fun r => Py.is_ascii (status r) = true) results ->
  (_overall_status results = "FAIL"
   <-> exists r, r ∈ results /\ Py.upper (status r) = "FAIL")
  /\ (_overall_status results = "WARN"
      <-> (forall r, r ∈ results -> Py.upper (status r) <> "FAIL")
          /\ exists r, r ∈ results /\ Py.upper (status r) = "WARN")
  /\ (_overall_status results = "SKIP"
      <-> results <> [] /\ forall r, r ∈ results -> Py.upper (status r) = "SKIP")
  /\ (_overall_status results = "PASS"
      <-> (forall r, r ∈ results ->
             Py.upper (status r) <> "FAIL" /\ Py.upper (status r) <> "WARN")
          /\ (results = [] \/ exists r, r ∈ results /\ Py.upper (status r) <> "SKIP"))
  /\ (forall results', results ≡ₚ results' ->
        _overall_status results' = _overall_status results).
Proof.
  intros _. pose proof (overall_status_cases results) as C.
  split_and!.
  - split.
    + intros E.
      destruct C as [((r & I & F) & _)|[(_ & _ & W)|[(_ & _ & K)|(_ & _ & _ & Q)]]];
        [eauto|congruence..].
    + intros (r & I & E).
      destruct C as [(_ & ?)|[(N & _)|[(A & _)|(N & _)]]];
        [done|status_clash..].
  - split.
    + intros E.
      destruct C as [((r & I & F) & W)|[(N & X & _)|[(_ & _ & K)|(_ & _ & _ & Q)]]];
        [congruence|done|congruence..].
    + intros (N & r & I & E).
      destruct C as [((r' & I' & E') & _)|[(_ & _ & ?)|[(A & _)|(_ & N' & _)]]];
        [status_clash|done|status_clash..].
  - split.
    + intros E.
      destruct C as [((r & I & F) & W)|[(_ & _ & W)|[(A & N & _)|(_ & _ & _ & Q)]]];
        [congruence..|done|congruence].
    + intros (N & A).
      destruct C as [((r' & I' & E') & _)|[(_ & (r' & I' & E') & _)|[(_ & _ & ?)|(_ & _ & K & _)]]];
        [status_clash..|done|].
      destruct K as [K|(r' & I' & E')]; [done|status_clash].
  - split.
    + intros E.
      destruct C as [((r & I & F) & W)|[(_ & _ & W)|[(_ & _ & W)|(NF & NW & K & _)]]];
        [congruence..|].
      split; [|done]. intros r I. split; auto.
    + intros (N & K).
      destruct C as [((r' & I' & E') & _)|[(_ & (r' & I' & E') & _)|[(A & NE & _)|(_ & _ & _ & ?)]]];
        [destruct (N r' I'); done..| |done].
      destruct K as [K|(r' & I' & E')]; [done|status_clash].
  - intros results' P. pose proof (overall_status_cases results') as C'.
    assert (forall r, r ∈ results' <-> r ∈ results) as M
      by (intros r; by rewrite P).
    assert (results' = [] <-> results = []) as Z.
    { split; intros ->; [by apply Permutation_nil_r in P
                        |by apply Permutation_nil_l in P]. }
    destruct C as [((r & I & E) & ->)|[(N & (r & I & E) & ->)|[(A & N & ->)|(NF & NW & K & ->)]]].
    + apply M in I.
      destruct C' as [(_ & ?)|[(N' & _)|[(A' & _)|(N' & _)]]];
        [done|status_clash..].
    + apply M in I.
      destruct C' as [((r' & I' & E') & _)|[(_ & _ & ?)|[(A' & _)|(_ & N' & _)]]];
        [apply M in I'; status_clash|done|status_clash..].
    + destruct C' as [((r' & I' & E') & _)|[(_ & (r' & I' & E') & _)|[(_ & _ & ?)|(_ & _ & K' & _)]]];
        [apply M in I'; status_clash..|done|].
      destruct K' as [K'|(r' & I' & E')]; [by apply Z in K'|].
      apply M in I'. status_clash.
    + destruct C' as [((r' & I' & E') & _)|[(_ & (r' & I' & E') & _)|[(A' & N' & _)|(_ & _ & _ & ?)]]];
        [apply M in I'; status_clash..| |done].
      destruct K as [K|(r & I & E)]; [by apply Z in K|].
      apply M in I. status_clash.
Qed.

(** X18, tried: a warning and a failure in lower case. *)
Lemma overall_status_characterised_witness :
  _overall_status
    [ {| name := "Environment"; status := "PASS"; report := Text "" |};
      {| name := "pv.csv schema"; status := "WARN"; report := NotFound |};
      {| name := "Unit tests"; status := "fail"; report := Text "" |} ] = "FAIL".
Proof.
  refine (proj2 (proj1 (overall_status_characterised _ _)) _).
  - repeat constructor.
  - eexists. split; [right; right; left|reflexivity].
Defined.

Lemma filter_nil_not_in (cols wanted : list string) :
  filter (fun c => c ∉ cols) wanted = [] -> forall c, c ∈ wanted -> c ∈ cols.
Proof.
  intros F c I. destruct (decide (c ∈ cols)) as [|N]; [done|].
  assert (c ∈ filter (fun c => c ∉ cols) wanted) as H
    by (by apply list_elem_of_filter).
  rewrite F in H. by apply elem_of_nil in H.
Qed.

(** X19. A file that passes the schema check can be shown: it is a table
    with the columns [timestamp] and [total_energy_kWh], at least one
    point column and at least one row; the time stamp that the check
    reports is the one of every reading parsed from it; and if the parser
    raises on it at all, then on a cell, never for want of a row. *)
Theorem passed_schema_check_can_be_parsed (file : option read_csv) :
  status (check_pv_csv file) = "PASS" ->
  exists df row x,
    file = Some (ReadFrame df)
    /\ "timestamp" ∈ columns df
    /\ "total_energy_kWh" ∈ columns df
    /\ prod_cols df <> []
    /\ iloc_last df = Ok row
    /\ lookup_label row "timestamp" = Some x
    /\ report (check_pv_csv file)
       = Schema (length (rows df))
                (length (filter (fun c => is_prod_col c = true) (columns df)))
                (to_str x)
    /\ (forall src r, parsed (ReadFrame df) src = Ok r ->
                      data_timestamp r = Some (to_str x))
    /\ (forall src e, parsed (ReadFrame df) src = Raised e ->
                      exists c, e = KeyError c \/ e = FloatError c).
Proof.
  intros H. destruct file as [[e|df]|]; [done| |done].
  unfold check_pv_csv in *. cbv zeta in *.
  destruct (filter (fun c => c ∉ columns df) _) as [|m ms] eqn:M; [|done].
  destruct (filter (fun c => is_prod_col c = true) (columns df)) as [|c cs] eqn:C;
    [done|].
  destruct (iloc_last df) as [row|e] eqn:R; cbn [bind] in *; [|done].
  unfold getitem in *.
  destruct (lookup_label row "timestamp") as [x|] eqn:L; [|done].
  exists df, row, x. split_and!; try done.
  - apply (filter_nil_not_in _ _ M). left.
  - apply (filter_nil_not_in _ _ M). right. left.
  - unfold prod_cols. rewrite C. intros E.
    pose proof (sorted_perm _ptot_index (c :: cs)) as P. rewrite E in P.
    by apply Permutation_nil_l in P.
  - cbn [report]. by rewrite C.
  - intros src r P. unfold parsed in P. cbn [bind] in P. rewrite R in P.
    cbn [bind] in P.
    destruct (production_values row (prod_cols df)) as [vs|]; [|done].
    cbn [bind] in P.
    destruct (float_get row "total_energy_kWh" (Py.sum vs)); [|done].
    cbn [bind] in P.
    destruct (float_get row "total_energy_kWh" 0%float); [|done].
    cbn [bind] in P. injection P as <-. cbn. by rewrite L.
  - intros src e P. unfold parsed in P. cbn [bind] in P. rewrite R in P.
    cbn [bind] in P.
    assert (forall cols e', production_values row cols = Raised e' ->
              exists c, e' = KeyError c \/ e' = FloatError c) as PV.
    { clear. induction cols as [|c cols IH]; intros e' H; [done|].
      cbn [production_values] in H. unfold getitem, float_of in H.
      destruct (lookup_label row c) as [x|]; cbn [bind] in H;
        [|injection H as <-; eauto].
      destruct (notna x); [|eauto].
      destruct (to_float x); cbn [bind] in H; [|injection H as <-; eauto].
      destruct (production_values row cols); cbn [bind] in H; [done|].
      injection H as <-. eauto. }
    assert (forall d e', float_get row "total_energy_kWh" d = Raised e' ->
              exists c, e' = KeyError c \/ e' = FloatError c) as FG.
    { intros d e'. unfold float_get, float_of.
      destruct (lookup_label row "total_energy_kWh") as [y|]; [|done].
      destruct (to_float y); [done|]. intros [= <-]. eauto. }
    destruct (production_values row (prod_cols df)) as [vs|e1] eqn:V;
      cbn [bind] in P; [|injection P as <-; eauto].
    destruct (float_get row "total_energy_kWh" (Py.sum vs)) as [v1|e1] eqn:T1;
      cbn [bind] in P; [|injection P as <-; eauto].
    destruct (float_get row "total_energy_kWh" 0%float) as [v2|e1] eqn:T2;
      cbn [bind] in P; [done|injection P as <-; eauto].
Qed.

(** X19, tried on the scenario table. *)
Lemma passed_schema_check_can_be_parsed_witness :
  exists df row x,
    Some (ReadFrame SampleApp.two_points) = Some (ReadFrame df)
    /\ iloc_last df = Ok row
    /\ lookup_label row "timestamp" = Some x
    /\ to_str x = "2024-01-02 10:00:00".
Proof.
  destruct (passed_schema_check_can_be_parsed (Some (ReadFrame SampleApp.two_points))
              eq_refl) as (df & row & x & E & _ & _ & _ & R & L & S & _).
  exists df, row, x. split_and!; [exact E | exact R | exact L |].
  cbn in S. by injection S.
Defined.

End ValidateFacts.
